(** * dataclass_mapper.mapping_method: the mapping-method source builder

    A shallow embedding of [MappingMethodSourceCode] and of the small Python
    fragment it emits, with the properties of the per-field strategy
    decision of [add_mapping]. *)

From Stdlib Require Import Ascii String.
From stdpp Require Import gmap strings list fin_maps.

Open Scope string_scope.
Open Scope list_scope.
Set Warnings "-register-all".

(** ** Text helpers *)

(** The characters the f-strings of the source need and that a Rocq string
    literal cannot hold directly. *)
Definition dq : string := String "034"%char EmptyString.
Definition nl : string := String "010"%char EmptyString.

(** [" " * indent] *)
Fixpoint spaces (indent : nat) : string :=
  match indent with
  | O => EmptyString
  | S n => " " +:+ spaces n
  end.

(** [sep.join(ls)] *)
Fixpoint join (sep : string) (ls : list string) : string :=
  match ls with
  | [] => EmptyString
  | [l] => l
  | l :: rest => l +:+ sep +:+ join sep rest
  end.

(** ** Python types as the builder inspects them *)

(** What [add_mapping] looks at in a declared field type: equality,
    [__name__], [hasattr], [get_origin] and [get_args].  A class carries an
    identity (Python compares classes by identity), its [__name__] and the
    names of its attributes; [list[item]] is the generic alias of the builtin
    [list]. *)
Inductive PyType : Type :=
| TClass (ident : nat) (name : string) (attrs : list string)
| TList (item : PyType).

Fixpoint PyType_eqb (a b : PyType) : bool :=
  match a, b with
  | TClass i n l, TClass j m k =>
      bool_decide (i = j) && bool_decide (n = m) && bool_decide (l = k)
  | TList x, TList y => PyType_eqb x y
  | _, _ => false
  end.

(** [cls.__name__]: an alias of [list] forwards it to [list]. *)
Definition dunder_name (cls : PyType) : string :=
  match cls with
  | TClass _ name _ => name
  | TList _ => "list"
  end.

(** [hasattr(cls, attr)].  An alias [list[X]] forwards the lookup to the
    builtin [list], whose attributes are fixed and none of which is a
    [_map_to_...] name, the only names the builder asks for. *)
Definition hasattr (cls : PyType) (attr : string) : bool :=
  match cls with
  | TClass _ _ attrs => bool_decide (attr ∈ attrs)
  | TList _ => false
  end.

Inductive PyOrigin : Type := origin_list.

(** [typing.get_origin] *)
Definition get_origin (t : PyType) : option PyOrigin :=
  match t with
  | TList _ => Some origin_list
  | TClass _ _ _ => None
  end.

(** [get_origin(t) is list] *)
Definition is_list (o : option PyOrigin) : bool :=
  match o with
  | Some origin_list => true
  | None => false
  end.

(** [typing.get_args] *)
Definition get_args (t : PyType) : list PyType :=
  match t with
  | TList item => [item]
  | TClass _ _ _ => []
  end.

(** ** Field and record descriptors *)

(** [fm_str] is what [str(field)] returns: the [__str__] of [FieldMeta] is
    declared in fieldmeta.py, so its result is carried by the descriptor. *)
Record FieldMeta : Type := mkFieldMeta {
  fm_name : string;
  fm_type : PyType;
  allow_none : bool;
  required : bool;
  fm_str : string
}.

(** Modelled from the spec: the property [disallow_none] of [FieldMeta],
    whose class is declared in fieldmeta.py; the decision table writes it
    NOT [allow_none]. *)
Definition disallow_none (f : FieldMeta) : bool := negb (allow_none f).

(** Modelled from the spec: the enum [DataclassType] declared in
    classmeta.py, the record kind; [PYDANTIC] is the kind that tracks which
    fields were explicitly set. *)
Inductive DataclassType : Type := DATACLASSES | PYDANTIC.

Definition DataclassType_eqb (a b : DataclassType) : bool :=
  match a, b with
  | DATACLASSES, DATACLASSES => true
  | PYDANTIC, PYDANTIC => true
  | _, _ => false
  end.

Record ClassMeta : Type := mkClassMeta {
  cm_name : string;
  alias_name : string;
  _type : DataclassType;
  fields : list FieldMeta
}.

(** ** Runtime values *)

(** An object carries its class name, its attributes and, for a record that
    tracks it, [__fields_set__]. *)
Inductive Value : Type :=
| VNone
| VInt (z : Z)
| VStr (s : string)
| VList (items : list Value)
| VObj (cls : string) (attrs : list (string * Value))
       (fields_set : option (list string)).

(** A Python function: what [inspect.signature] reports about it, and what
    calling it on a list of positional arguments returns ([None]: it raises). *)
Record PyFunction : Type := mkPyFunction {
  fn_params : nat;
  fn_call : list Value -> option Value
}.

(** What the helper registry holds: [staticmethod(function)] or the function
    itself, that the class then binds to the instance. *)
Inductive Callable : Type :=
| staticmethod (f : PyFunction)
| method (f : PyFunction).

(** The second argument of [add_mapping], [Union[FieldMeta, Callable]]:
    a field descriptor, or a function, which [isfunction] recognises. *)
Inductive Source : Type :=
| SrcField (f : FieldMeta)
| SrcFunction (f : PyFunction).

(** ** Exceptions *)

Inductive Exc : Type :=
| TypeError (msg : string)
| IndexError.

Inductive Result (A : Type) : Type :=
| Ok (a : A)
| Raise (e : Exc).
Arguments Ok {A} a.
Arguments Raise {A} e.

Definition bind {A B} (r : Result A) (k : A -> Result B) : Result B :=
  match r with
  | Ok a => k a
  | Raise e => Raise e
  end.

Notation "x <- c ;; k" := (bind c (fun x => k))
  (at level 100, c at next level, right associativity).

(** [xs[0]] *)
Definition index0 {A} (xs : list A) : Result A :=
  match xs with
  | x :: _ => Ok x
  | [] => Raise IndexError
  end.

(** ** The builder *)

Record MappingMethodSourceCode : Type := mkBuilder {
  source_cls : ClassMeta;
  target_cls : ClassMeta;
  lines : list string;
  methods : gmap string Callable
}.

(** [__init__] *)
Definition init (source_cls target_cls : ClassMeta) : MappingMethodSourceCode :=
  {| source_cls := source_cls;
     target_cls := target_cls;
     lines := [ "def convert(self) -> " +:+ dq +:+ cm_name target_cls +:+ dq +:+ ":";
                "    d = {}" ];
     methods := ∅ |}.

(** [self.lines.append(line)] *)
Definition append_line (self : MappingMethodSourceCode) (line : string)
  : MappingMethodSourceCode :=
  {| source_cls := source_cls self;
     target_cls := target_cls self;
     lines := lines self ++ [line];
     methods := methods self |}.

(** [self.methods[name] = f] *)
Definition set_method (self : MappingMethodSourceCode) (name : string) (f : Callable)
  : MappingMethodSourceCode :=
  {| source_cls := source_cls self;
     target_cls := target_cls self;
     lines := lines self;
     methods := <[name := f]> (methods self) |}.

Definition get_source (name : string) : string := "self." +:+ name.

Definition _add_line (self : MappingMethodSourceCode)
    (left_side right_side : string) (indent : nat) : MappingMethodSourceCode :=
  append_line self
    (spaces indent +:+ "d[" +:+ dq +:+ left_side +:+ dq +:+ "] = " +:+ right_side).

Definition add_assignment (self : MappingMethodSourceCode)
    (target source : FieldMeta) (only_if_not_None only_if_set : bool)
  : MappingMethodSourceCode :=
  let source_var_name := "self." +:+ fm_name source in
  let indent := 4 in
  let '(self, indent) :=
    if only_if_not_None
    then (append_line self ("    if " +:+ source_var_name +:+ " is not None:"), 8)
    else (self, indent) in
  let '(self, indent) :=
    if only_if_set
    then (append_line self
            ("    if '" +:+ fm_name source +:+ "' in self.__fields_set__:"), 8)
    else (self, indent) in
  _add_line self (fm_name target) source_var_name indent.

Definition get_map_to_func_name (cls : PyType) : string :=
  "_map_to_" +:+ dunder_name cls.

Definition _get_map_func (name : string) (target_cls : PyType) : string :=
  let func_name := get_map_to_func_name target_cls in
  name +:+ "." +:+ func_name +:+ "()".

Definition is_mappable_to (SourceCls TargetCls : PyType) : bool :=
  let func_name := get_map_to_func_name TargetCls in
  hasattr SourceCls func_name.

Definition add_recursive (self : MappingMethodSourceCode)
    (target source : FieldMeta) (only_if_set if_None : bool)
  : MappingMethodSourceCode :=
  let source_var_name := "self." +:+ fm_name source in
  let right_side := _get_map_func source_var_name (fm_type target) in
  if only_if_set then
    let self := append_line self
                  ("    if '" +:+ fm_name source +:+ "' in self.__fields_set__:") in
    let indent := 8 in
    let right_side :=
      if if_None
      then "None if " +:+ source_var_name +:+ " is None else " +:+ right_side
      else right_side in
    _add_line self (fm_name target) right_side indent
  else
    let right_side :=
      if if_None
      then "None if " +:+ source_var_name +:+ " is None else " +:+ right_side
      else right_side in
    _add_line self (fm_name target) right_side 4.

(** [get_args(target.type)[0]] is evaluated first: when it raises, no line
    has been appended. *)
Definition add_recursive_list (self : MappingMethodSourceCode)
    (target source : FieldMeta) (if_None only_if_not_None only_if_set : bool)
  : Result MappingMethodSourceCode :=
  let source_var_name := "self." +:+ fm_name source in
  list_item_type <- index0 (get_args (fm_type target)) ;;
  let right_side :=
    "[" +:+ _get_map_func "x" list_item_type +:+ " for x in " +:+ source_var_name +:+ "]" in
  let indent := 4 in
  let '(self, indent) :=
    if only_if_not_None
    then (append_line self ("    if " +:+ source_var_name +:+ " is not None:"), 8)
    else (self, indent) in
  let '(self, indent) :=
    if only_if_set
    then (append_line self
            ("    if '" +:+ fm_name source +:+ "' in self.__fields_set__:"), 8)
    else (self, indent) in
  let right_side :=
    if if_None
    then "None if " +:+ source_var_name +:+ " is None else " +:+ right_side
    else right_side in
  Ok (_add_line self (fm_name target) right_side indent).

(** [uuid4().hex] is taken as the argument [hex]: the draw of this call. *)
Definition add_function_call (self : MappingMethodSourceCode) (hex : string)
    (target : FieldMeta) (function : PyFunction) : MappingMethodSourceCode :=
  let name := "_" +:+ hex in
  let self :=
    if Nat.eqb (fn_params function) 0
    then set_method self name (staticmethod function)
    else set_method self name (method function) in
  let source := get_source name in
  _add_line self (fm_name target) (source +:+ "()") 4.

(** [get_origin(s) is list and get_origin(t) is list and
    is_mappable_to(get_args(s)[0], get_args(t)[0])], with the short circuit
    of [and]: the arguments are indexed only once both origins are [list]. *)
Definition lists_mappable (s t : PyType) : Result bool :=
  if is_list (get_origin s) && is_list (get_origin t)
  then x <- index0 (get_args s) ;;
       y <- index0 (get_args t) ;;
       Ok (is_mappable_to x y)
  else Ok false.

(** [add_mapping]; [hex] is the draw of [uuid4] that [add_function_call]
    makes when the source is a function.  The match on [source] is the test
    [isfunction(source)], and the assertion of its other branch holds of
    every [Source].  [maintain_unset] is the condition
    the source writes out in three of its branches (the comparison chain
    [a == b == PYDANTIC] reads [a == b and b == PYDANTIC]). *)
Definition add_mapping (self : MappingMethodSourceCode) (hex : string)
    (target : FieldMeta) (source : Source) : Result MappingMethodSourceCode :=
  match source with
  | SrcFunction function => Ok (add_function_call self hex target function)
  | SrcField source =>
    let maintain_unset :=
      allow_none source && allow_none target && negb (required target)
      && (DataclassType_eqb (_type (source_cls self)) (_type (target_cls self))
          && DataclassType_eqb (_type (target_cls self)) PYDANTIC) in
    if PyType_eqb (fm_type target) (fm_type source)
       && negb (allow_none source && disallow_none target)
    then
      if maintain_unset
      then Ok (add_assignment self target source false true)
      else Ok (add_assignment self target source false false)
    else if PyType_eqb (fm_type target) (fm_type source)
            && allow_none source && disallow_none target && negb (required target)
    then Ok (add_assignment self target source true false)
    else if is_mappable_to (fm_type source) (fm_type target)
            && negb (allow_none source && disallow_none target)
    then
      if maintain_unset
      then Ok (add_recursive self target source true true)
      else Ok (add_recursive self target source false (allow_none source))
    else
      lists <- lists_mappable (fm_type source) (fm_type target) ;;
      if lists && negb (allow_none source && disallow_none target)
      then
        if maintain_unset
        then add_recursive_list self target source (allow_none source) false true
        else add_recursive_list self target source (allow_none source) false false
      else if lists && allow_none source && disallow_none target
              && negb (required target)
      then add_recursive_list self target source (allow_none source) true false
      else Raise (TypeError (fm_str source +:+ " of '" +:+ cm_name (source_cls self)
                             +:+ "' cannot be converted to " +:+ fm_str target))
  end.

(** [__str__] *)
Definition to_str (self : MappingMethodSourceCode) : string :=
  let return_statement := "    return " +:+ alias_name (target_cls self) +:+ "(**d)" in
  join nl (lines self ++ [return_statement]).

(** Successive [add_mapping] calls on one builder, each with the draw
    [uuid4] makes for it; the first call that raises ends the synthesis. *)
Definition MappingCall : Type := string * FieldMeta * Source.

Fixpoint add_mappings (self : MappingMethodSourceCode) (calls : list MappingCall)
  : Result MappingMethodSourceCode :=
  match calls with
  | [] => Ok self
  | (hex, target, source) :: rest =>
      self <- add_mapping self hex target source ;;
      add_mappings self rest
  end.

(** Any of the builder's five emitting methods, with any arguments. *)
Inductive BuilderCall : Type :=
| call_add_assignment (target source : FieldMeta) (only_if_not_None only_if_set : bool)
| call_add_recursive (target source : FieldMeta) (only_if_set if_None : bool)
| call_add_recursive_list (target source : FieldMeta)
    (if_None only_if_not_None only_if_set : bool)
| call_add_function_call (hex : string) (target : FieldMeta) (function : PyFunction)
| call_add_mapping (hex : string) (target : FieldMeta) (source : Source).

Definition perform (self : MappingMethodSourceCode) (c : BuilderCall)
  : Result MappingMethodSourceCode :=
  match c with
  | call_add_assignment t s n u => Ok (add_assignment self t s n u)
  | call_add_recursive t s u n => Ok (add_recursive self t s u n)
  | call_add_recursive_list t s n nn u => add_recursive_list self t s n nn u
  | call_add_function_call hex t f => Ok (add_function_call self hex t f)
  | call_add_mapping hex t s => add_mapping self hex t s
  end.

(** The builder after a call: a call that raises does so before it appends
    anything, and leaves the builder as it was. *)
Definition after_call (self : MappingMethodSourceCode) (c : BuilderCall)
  : MappingMethodSourceCode :=
  match perform self c with
  | Ok self' => self'
  | Raise _ => self
  end.

Definition after_calls (self : MappingMethodSourceCode) (cs : list BuilderCall)
  : MappingMethodSourceCode :=
  foldl after_call self cs.

(** ** The emitted fragment of Python *)

(** The right-hand sides the builder writes. *)
Inductive Expr : Type :=
| ESelfAttr (name : string)            (* self.name *)
| EHelperCall (name : string)          (* self.name() *)
| EMapCall (name func : string)        (* self.name.func() *)
| EMapList (name func : string)        (* [x.func() for x in self.name] *)
| ENoneOr (name : string) (e : Expr).  (* None if self.name is None else e *)

(** The [if] line a statement may stand under. *)
Inductive Guard : Type :=
| Unguarded
| IfNotNone (name : string)            (* if self.name is not None: *)
| IfSet (name : string).               (* if 'name' in self.__fields_set__: *)

(** [d["key"] = value], possibly under a guard. *)
Record Stmt : Type := mkStmt {
  s_guard : Guard;
  s_key : string;
  s_value : Expr
}.

(** A routine: the header with the annotation [returns], [d = {}], the
    body, and the return of [constructor] called on the entries of [d] as
    keyword arguments. *)
Record Routine : Type := mkRoutine {
  r_returns : string;
  r_body : list Stmt;
  r_constructor : string
}.

Fixpoint render_expr (e : Expr) : string :=
  match e with
  | ESelfAttr name => "self." +:+ name
  | EHelperCall name => ("self." +:+ name) +:+ "()"
  | EMapCall name func => ("self." +:+ name) +:+ "." +:+ func +:+ "()"
  | EMapList name func =>
      "[" +:+ ("x" +:+ "." +:+ func +:+ "()") +:+ " for x in " +:+ ("self." +:+ name) +:+ "]"
  | ENoneOr name e => "None if " +:+ ("self." +:+ name) +:+ " is None else " +:+ render_expr e
  end.

Definition render_assign (indent : nat) (key : string) (e : Expr) : string :=
  spaces indent +:+ "d[" +:+ dq +:+ key +:+ dq +:+ "] = " +:+ render_expr e.

Definition render_stmt (s : Stmt) : list string :=
  match s_guard s with
  | Unguarded => [ render_assign 4 (s_key s) (s_value s) ]
  | IfNotNone name =>
      [ "    if " +:+ ("self." +:+ name) +:+ " is not None:";
        render_assign 8 (s_key s) (s_value s) ]
  | IfSet name =>
      [ "    if '" +:+ name +:+ "' in self.__fields_set__:";
        render_assign 8 (s_key s) (s_value s) ]
  end.

Definition render_routine (r : Routine) : string :=
  join nl ([ "def convert(self) -> " +:+ dq +:+ r_returns r +:+ dq +:+ ":";
             "    d = {}" ]
           ++ concat (map render_stmt (r_body r))
           ++ [ "    return " +:+ r_constructor r +:+ "(**d)" ]).

(** What calling the routine's last line amounts to: the constructor named
    and the keyword arguments it is given. *)
Record Construction : Type := mkConstruction {
  constructor : string;
  kwargs : gmap string Value
}.

Fixpoint assoc (name : string) (attrs : list (string * Value)) : option Value :=
  match attrs with
  | [] => None
  | (k, v) :: rest => if bool_decide (k = name) then Some v else assoc name rest
  end.

(** [obj.name]; [None] is an [AttributeError]. *)
Definition getattr (obj : Value) (name : string) : option Value :=
  match obj with
  | VObj _ attrs _ => assoc name attrs
  | _ => None
  end.

(** [v is None] *)
Definition is_None (v : Value) : bool :=
  match v with
  | VNone => true
  | _ => false
  end.

(** What [for x in v] runs over: the items of a list, the characters of a
    string; [None] and numbers are not iterable, and objects are taken not
    to be. *)
Definition iterate (v : Value) : option (list Value) :=
  match v with
  | VList items => Some items
  | VStr s => Some (map (fun c => VStr (String c EmptyString)) (list_ascii_of_string s))
  | _ => None
  end.

Section Runtime.

(** The helpers attached to the source class, and the call [v.func()] of a
    conversion routine registered on the class of [v]; both are the
    registering caller's, and [None] is a raised exception. *)
Variable helpers : gmap string Callable.
Variable call_method : Value -> string -> option Value.

Fixpoint eval (self : Value) (e : Expr) : option Value :=
  match e with
  | ESelfAttr name => getattr self name
  | EHelperCall name =>
      match helpers !! name with
      | Some (staticmethod f) => fn_call f []
      | Some (method f) => fn_call f [self]
      | None => None
      end
  | EMapCall name func => v ← getattr self name; call_method v func
  | EMapList name func =>
      v ← getattr self name;
      items ← iterate v;
      VList <$> mapM (fun x => call_method x func) items
  | ENoneOr name e =>
      v ← getattr self name;
      if is_None v then Some VNone else eval self e
  end.

Definition guard_holds (self : Value) (g : Guard) : option bool :=
  match g with
  | Unguarded => Some true
  | IfNotNone name => v ← getattr self name; Some (negb (is_None v))
  | IfSet name =>
      match self with
      | VObj _ _ (Some fields_set) => Some (bool_decide (name ∈ fields_set))
      | _ => None
      end
  end.

Definition exec (self : Value) (d : gmap string Value) (s : Stmt)
  : option (gmap string Value) :=
  b ← guard_holds self (s_guard s);
  if b : bool
  then v ← eval self (s_value s); Some (<[s_key s := v]> d)
  else Some d.

Fixpoint exec_all (self : Value) (d : gmap string Value) (body : list Stmt)
  : option (gmap string Value) :=
  match body with
  | [] => Some d
  | s :: rest => d' ← exec self d s; exec_all self d' rest
  end.

Definition run (r : Routine) (self : Value) : option Construction :=
  d ← exec_all self ∅ (r_body r);
  Some (mkConstruction (r_constructor r) d).

End Runtime.

(** ** The statement each call stands for *)

(** The builder with the lines of a statement appended. *)
Definition emit (self : MappingMethodSourceCode) (s : Stmt) : MappingMethodSourceCode :=
  foldl append_line self (render_stmt s).

Definition stmt_assignment (target source : FieldMeta)
    (only_if_not_None only_if_set : bool) : Stmt :=
  mkStmt (if only_if_set then IfSet (fm_name source)
          else if only_if_not_None then IfNotNone (fm_name source)
          else Unguarded)
         (fm_name target) (ESelfAttr (fm_name source)).

Definition none_or (if_None : bool) (name : string) (e : Expr) : Expr :=
  if if_None then ENoneOr name e else e.

Definition stmt_recursive (target source : FieldMeta) (only_if_set if_None : bool) : Stmt :=
  mkStmt (if only_if_set then IfSet (fm_name source) else Unguarded)
         (fm_name target)
         (none_or if_None (fm_name source)
            (EMapCall (fm_name source) (get_map_to_func_name (fm_type target)))).

Definition stmt_recursive_list (target source : FieldMeta) (item : PyType)
    (if_None only_if_not_None only_if_set : bool) : Stmt :=
  mkStmt (if only_if_set then IfSet (fm_name source)
          else if only_if_not_None then IfNotNone (fm_name source)
          else Unguarded)
         (fm_name target)
         (none_or if_None (fm_name source)
            (EMapList (fm_name source) (get_map_to_func_name item))).

Definition stmt_function_call (hex : string) (target : FieldMeta) : Stmt :=
  mkStmt Unguarded (fm_name target) (EHelperCall ("_" +:+ hex)).

(** ** The decision table, in the words of the specification *)

(** Both record kinds are the kind that tracks explicitly set fields. *)
Definition both_track_explicit_set (self : MappingMethodSourceCode) : bool :=
  DataclassType_eqb (_type (source_cls self)) PYDANTIC
  && DataclassType_eqb (_type (target_cls self)) PYDANTIC.

(** [source.allow_none] AND NOT [target.allow_none] *)
Definition null_into_non_null (target source : FieldMeta) : bool :=
  allow_none source && negb (allow_none target).

(** Both kinds track explicit-set, the target is nullable and not required. *)
Definition explicit_set_condition (self : MappingMethodSourceCode) (target : FieldMeta)
  : bool :=
  both_track_explicit_set self && allow_none target && negb (required target).

(** Both types are ordered sequences, of X and of Y, and a conversion
    routine exists from X to Y. *)
Definition sequence_condition (target source : FieldMeta) : bool :=
  match fm_type source, fm_type target with
  | TList X, TList Y => is_mappable_to X Y
  | _, _ => false
  end.

Definition spec_row1 (self : MappingMethodSourceCode) (target source : FieldMeta) : bool :=
  PyType_eqb (fm_type target) (fm_type source)
  && negb (null_into_non_null target source)
  && negb (explicit_set_condition self target).

Definition spec_row2 (self : MappingMethodSourceCode) (target source : FieldMeta) : bool :=
  PyType_eqb (fm_type target) (fm_type source)
  && negb (null_into_non_null target source)
  && explicit_set_condition self target.

Definition spec_row3 (target source : FieldMeta) : bool :=
  PyType_eqb (fm_type target) (fm_type source)
  && allow_none source && negb (allow_none target) && negb (required target).

Definition spec_row4 (target source : FieldMeta) : bool :=
  is_mappable_to (fm_type source) (fm_type target)
  && negb (null_into_non_null target source).

Definition spec_row5 (target source : FieldMeta) : bool :=
  sequence_condition target source && negb (null_into_non_null target source).

Definition spec_row6 (target source : FieldMeta) : bool :=
  sequence_condition target source
  && allow_none source && negb (allow_none target) && negb (required target).

(** The message of the [TypeError] of [add_mapping]. *)
Definition cannot_convert (self : MappingMethodSourceCode) (target source : FieldMeta)
  : string :=
  fm_str source +:+ " of '" +:+ cm_name (source_cls self)
  +:+ "' cannot be converted to " +:+ fm_str target.

(** The statement a call of [add_mapping] stands for. *)
Definition strategy (self : MappingMethodSourceCode) (hex : string)
    (target : FieldMeta) (source : Source) : Result Stmt :=
  match source with
  | SrcFunction _ => Ok (stmt_function_call hex target)
  | SrcField source =>
      let unset := allow_none source && explicit_set_condition self target in
      if PyType_eqb (fm_type target) (fm_type source)
         && negb (null_into_non_null target source)
      then Ok (stmt_assignment target source false unset)
      else if spec_row3 target source
      then Ok (stmt_assignment target source true false)
      else if spec_row4 target source
      then Ok (stmt_recursive target source unset (allow_none source))
      else if spec_row5 target source
      then item <- index0 (get_args (fm_type target)) ;;
           Ok (stmt_recursive_list target source item (allow_none source) false unset)
      else if spec_row6 target source
      then item <- index0 (get_args (fm_type target)) ;;
           Ok (stmt_recursive_list target source item (allow_none source) true false)
      else Raise (TypeError (cannot_convert self target source))
  end.

(** The helper a call of [add_mapping] registers. *)
Definition register (self : MappingMethodSourceCode) (hex : string) (source : Source)
  : MappingMethodSourceCode :=
  match source with
  | SrcFunction function =>
      set_method self ("_" +:+ hex)
        (if Nat.eqb (fn_params function) 0
         then staticmethod function else method function)
  | SrcField _ => self
  end.


(** The statements a sequence of [add_mapping] calls stands for. *)
Fixpoint strategies (self : MappingMethodSourceCode) (calls : list MappingCall)
  : Result (list Stmt) :=
  match calls with
  | [] => Ok []
  | (hex, target, source) :: rest =>
      s <- strategy self hex target source ;;
      body <- strategies self rest ;;
      Ok (s :: body)
  end.

(** The helper registry after a sequence of [add_mapping] calls. *)
Fixpoint helpers_after (m : gmap string Callable) (calls : list MappingCall)
  : gmap string Callable :=
  match calls with
  | [] => m
  | (hex, _, SrcField _) :: rest => helpers_after m rest
  | (hex, _, SrcFunction function) :: rest =>
      helpers_after
        (<["_" +:+ hex := if Nat.eqb (fn_params function) 0
                          then staticmethod function else method function]> m)
        rest
  end.

(** ** Field pairs of one shape *)

(** A target and a source field of the same name and type, both required and
    not nullable. *)
Definition same_shape (target source : FieldMeta) : Prop :=
  fm_name target = fm_name source /\ fm_type target = fm_type source
  /\ allow_none source = false /\ allow_none target = false
  /\ required source = true /\ required target = true.

(** The call of [add_mapping] for a target field and a source field. *)
Definition field_call (p : FieldMeta * FieldMeta) : MappingCall :=
  (EmptyString, p.1, SrcField p.2).

(** [d["target"] = self.source] *)
Definition direct (target source : FieldMeta) : Stmt :=
  mkStmt Unguarded (fm_name target) (ESelfAttr (fm_name source)).

(** The draws of [uuid4] a sequence of [add_mapping] calls makes: one for
    each function it is given. *)
Fixpoint draws (calls : list MappingCall) : list string :=
  match calls with
  | [] => []
  | (hex, _, SrcFunction _) :: rest => hex :: draws rest
  | (_, _, SrcField _) :: rest => draws rest
  end.

(** The requests of two syntheses: the target fields and their origins,
    without the draws. *)
Definition same_requests (calls1 calls2 : list MappingCall) : Prop :=
  Forall2 (fun c1 c2 => c1.1.2 = c2.1.2 /\ c1.2 = c2.2) calls1 calls2.

(** The two lines [__init__] starts from and the line [__str__] ends with. *)
Definition header (tc : ClassMeta) : list string :=
  [ "def convert(self) -> " +:+ dq +:+ cm_name tc +:+ dq +:+ ":"; "    d = {}" ].

Definition return_statement (tc : ClassMeta) : string :=
  "    return " +:+ alias_name tc +:+ "(**d)".

(** An expression that calls no helper. *)
Fixpoint helper_free (e : Expr) : bool :=
  match e with
  | EHelperCall _ => false
  | ENoneOr _ e => helper_free e
  | _ => true
  end.

(** What [add_function_call] stores for a function. *)
Definition helper_of (function : PyFunction) : Callable :=
  if Nat.eqb (fn_params function) 0 then staticmethod function else method function.

(** The number of lines of a builder a call returned. *)
Definition line_count (r : Result MappingMethodSourceCode) : nat :=
  match r with
  | Ok self => length (lines self)
  | Raise _ => 0
  end.

(** ** Examples *)

Module Examples.

Definition int : PyType := TClass 1 "int" [].
Definition str : PyType := TClass 2 "str" [].

(** The classes of the tests: [Foo] and [Bar2] are mapped to [Bar], [Baz2]
    to [Baz]. *)
Definition Bar : PyType := TClass 3 "Bar" [].
Definition Bar2 : PyType := TClass 4 "Bar2" ["_map_to_Bar"].

(** Another class named [Bar], of another module. *)
Definition Bar_elsewhere : PyType := TClass 9 "Bar" ["x"].

(** A class mapped to a class of its own name. *)
Definition Node : PyType := TClass 5 "Node" ["_map_to_Node"].

Definition x_int : FieldMeta := mkFieldMeta "x" int false true "'x' of type 'int'".
Definition y_str : FieldMeta := mkFieldMeta "y" str false true "'y' of type 'str'".

Definition Foo_meta : ClassMeta := mkClassMeta "Foo" "Foo" PYDANTIC [x_int; y_str].
Definition Bar_meta : ClassMeta := mkClassMeta "Bar" "Bar" PYDANTIC [x_int; y_str].

Definition foo : Value :=
  VObj "Foo" [("x", VInt 42); ("y", VStr "answer")] (Some ["x"; "y"]).

(** A field with a default: not nullable, not required. *)
Definition count_default : FieldMeta :=
  mkFieldMeta "count" int false false "'count' of type 'int'".
(** A nullable field with a default. *)
Definition count_optional : FieldMeta :=
  mkFieldMeta "count" int true false "'count' of type 'Optional[int]'".

(** An instance built without [count]: it holds the default, 7, and
    [count] is not among the explicitly set names. *)
Definition unset_count : Value := VObj "Source" [("count", VInt 7)] (Some []).
(** An instance built with [count=None]. *)
Definition null_count : Value := VObj "Source" [("count", VNone)] (Some ["count"]).

Definition bar_default : FieldMeta :=
  mkFieldMeta "bar" Bar2 false false "'bar' of type 'Bar2'".
Definition bar_nullable : FieldMeta :=
  mkFieldMeta "bar" Bar2 true false "'bar' of type 'Optional[Bar2]'".
Definition bar_target : FieldMeta :=
  mkFieldMeta "bar" Bar true false "'bar' of type 'Optional[Bar]'".
Definition bar_target_default : FieldMeta :=
  mkFieldMeta "bar" Bar false false "'bar' of type 'Bar'".

Definition node_field : FieldMeta :=
  mkFieldMeta "next" Node false true "'next' of type 'Node'".

Definition tags_default : FieldMeta :=
  mkFieldMeta "tags" (TList Bar2) false false "'tags' of type 'list[Bar2]'".
Definition tags_nullable : FieldMeta :=
  mkFieldMeta "tags" (TList Bar2) true false "'tags' of type 'Optional[list[Bar2]]'".
Definition tags_target : FieldMeta :=
  mkFieldMeta "tags" (TList Bar) true false "'tags' of type 'Optional[list[Bar]]'".
Definition tags_target_default : FieldMeta :=
  mkFieldMeta "tags" (TList Bar) false false "'tags' of type 'list[Bar]'".
Definition nodes_field : FieldMeta :=
  mkFieldMeta "nodes" (TList Node) false true "'nodes' of type 'list[Node]'".
Definition nodes_nullable : FieldMeta :=
  mkFieldMeta "nodes" (TList Node) true false "'nodes' of type 'Optional[list[Node]]'".
Definition nodes_default : FieldMeta :=
  mkFieldMeta "nodes" (TList Node) false false "'nodes' of type 'list[Node]'".

Definition bar2 (x : Z) : Value := VObj "Bar2" [("x", VInt x)] (Some ["x"]).
Definition bar (x : Z) : Value := VObj "Bar" [("x", VInt x)] (Some ["x"]).

(** The routine registered on [Bar2]: it returns the [Bar] of the same
    values; no other object has one. *)
Definition call_method (v : Value) (func : string) : option Value :=
  match v with
  | VObj "Bar2" attrs fields_set =>
      if bool_decide (func = "_map_to_Bar") then Some (VObj "Bar" attrs fields_set)
      else None
  | _ => None
  end.

Definition unset_bar : Value := VObj "Source" [("bar", bar2 1)] (Some []).
Definition unset_tags : Value :=
  VObj "Source" [("tags", VList [bar2 1; bar2 2])] (Some []).

(** Two helpers: one without parameter, one that takes the instance. *)
Definition constant : PyFunction := mkPyFunction 0 (fun _ => Some (VInt 1)).
Definition x_of_self : PyFunction :=
  mkPyFunction 1 (fun args => match args with
                              | [obj] => getattr obj "x"
                              | _ => None
                              end).

(** The builder of the routine from [Foo] to [Bar], both of the kind that
    tracks explicitly set fields. *)
Definition builder : MappingMethodSourceCode := init Foo_meta Bar_meta.

(** Two syntheses of one request list: the helper [x_of_self] for [x], the
    field [y] for [y]; the draws differ. *)
Definition requests (hex : string) : list MappingCall :=
  [ (hex, x_int, SrcFunction x_of_self); (EmptyString, y_str, SrcField y_str) ].

(** A function of two parameters, which raises when called with one
    argument. *)
Definition first_of_two : PyFunction :=
  mkPyFunction 2 (fun args => match args with
                              | [a; _] => Some a
                              | _ => None
                              end).

(** Two calls for which [uuid4] returned the same draw. *)
Definition colliding : list MappingCall :=
  [ ("0af3", x_int, SrcFunction constant); ("0af3", y_str, SrcFunction x_of_self) ].


End Examples.

(** ** Further notions *)

(** Some row of the decision table matches the pair. *)
Definition some_row (self : MappingMethodSourceCode) (target source : FieldMeta) : bool :=
  spec_row1 self target source || spec_row2 self target source
  || spec_row3 target source || spec_row4 target source
  || spec_row5 target source || spec_row6 target source.

(** The helper names an expression calls. *)
Fixpoint expr_helpers (e : Expr) : list string :=
  match e with
  | EHelperCall name => [name]
  | ENoneOr _ e => expr_helpers e
  | _ => []
  end.

(** The keys a sequence of calls assigns. *)
Definition target_names (calls : list MappingCall) : list string :=
  map (fun c : MappingCall => fm_name c.1.2) calls.

(** The function the last call with the draw [hex] was given. *)
Fixpoint last_function (hex : string) (calls : list MappingCall) : option PyFunction :=
  match calls with
  | [] => None
  | (h, _, SrcFunction function) :: rest =>
      match last_function hex rest with
      | Some later => Some later
      | None => if bool_decide (h = hex) then Some function else None
      end
  | (_, _, SrcField _) :: rest => last_function hex rest
  end.

(** The arguments a registered helper is called with on an instance: none
    for a static method, the instance for a bound one. *)
Definition helper_arguments (function : PyFunction) (obj : Value) : list Value :=
  if Nat.eqb (fn_params function) 0 then [] else [obj].

(** The instance carries [__fields_set__]. *)
Definition tracks_set (obj : Value) : Prop :=
  exists cls attrs fields_set, obj = VObj cls attrs (Some fields_set).

(** The instance is fit for a call.  For a function: the helper returns on
    the arguments it is called with.  For a field: the instance holds the
    source field; the value is null only if the source is nullable; and,
    the types being different, a value that is not null is one the routine
    to the target type returns on, or, for sequence types, a list of
    values the routine to the target's element type returns on. *)
Definition ready (call_method : Value -> string -> option Value) (obj : Value)
    (c : MappingCall) : Prop :=
  match c.2 with
  | SrcFunction function => is_Some (fn_call function (helper_arguments function obj))
  | SrcField source =>
      exists v,
        getattr obj (fm_name source) = Some v
        /\ (is_None v = true -> allow_none source = true)
        /\ (is_None v = false ->
            fm_type c.1.2 <> fm_type source ->
            (is_mappable_to (fm_type source) (fm_type c.1.2) = true ->
             is_Some (call_method v (get_map_to_func_name (fm_type c.1.2))))
            /\ (forall X Y,
                  fm_type source = TList X -> fm_type c.1.2 = TList Y ->
                  exists items,
                    v = VList items
                    /\ Forall (fun x => is_Some (call_method x (get_map_to_func_name Y)))
                              items))
  end.

(** A field descriptor with another declared type. *)
Definition with_type (f : FieldMeta) (t : PyType) : FieldMeta :=
  mkFieldMeta (fm_name f) t (allow_none f) (required f) (fm_str f).


(** ** Basic facts *)

Lemma PyType_eqb_refl (a : PyType) : PyType_eqb a a = true.
Proof.
  induction a as [i n l | x IH]; simpl; [|exact IH].
  rewrite !bool_decide_eq_true_2 by reflexivity. reflexivity.
Qed.

Lemma PyType_eqb_eq (a b : PyType) : PyType_eqb a b = true <-> a = b.
Proof.
  split; [|intros ->; apply PyType_eqb_refl].
  revert b. induction a as [i n l | x IH]; intros [j m k | y]; simpl; try discriminate.
  - rewrite !andb_true_iff, !bool_decide_eq_true. intros [[-> ->] ->]. reflexivity.
  - intros H. f_equal. apply IH, H.
Qed.

Lemma PyType_eqb_neq (a b : PyType) : a <> b -> PyType_eqb a b = false.
Proof.
  intros H. destruct (PyType_eqb a b) eqn:E; [|reflexivity].
  apply PyType_eqb_eq in E. contradiction.
Qed.

Lemma append_assoc (a b c : string) : (a +:+ b) +:+ c = a +:+ b +:+ c.
Proof.
  induction a as [|x a IH]; [reflexivity|].
  change (String x ((a +:+ b) +:+ c) = String x (a +:+ b +:+ c)).
  rewrite IH. reflexivity.
Qed.

(** Two texts that differ by the nesting of their concatenations. *)
Ltac same_text :=
  unfold render_stmt, render_assign;
  cbn [render_expr s_guard s_key s_value];
  rewrite ?append_assoc; reflexivity.

Lemma DataclassType_eqb_eq (a b : DataclassType) : DataclassType_eqb a b = true <-> a = b.
Proof. destruct a, b; simpl; split; congruence. Qed.

(** The condition [add_mapping] writes out for keeping a field unset asks,
    beside the specification's, that the source be nullable. *)
Lemma maintain_unset_spec (self : MappingMethodSourceCode) (target source : FieldMeta) :
  allow_none source && allow_none target && negb (required target)
  && (DataclassType_eqb (_type (source_cls self)) (_type (target_cls self))
      && DataclassType_eqb (_type (target_cls self)) PYDANTIC)
  = allow_none source && explicit_set_condition self target.
Proof.
  unfold explicit_set_condition, both_track_explicit_set.
  destruct (allow_none source), (allow_none target), (required target),
    (_type (source_cls self)), (_type (target_cls self)); reflexivity.
Qed.

(** A list alias has no conversion routine of its own. *)
Lemma is_mappable_to_TList (item : PyType) (t : PyType) :
  is_mappable_to (TList item) t = false.
Proof. reflexivity. Qed.

Lemma lists_mappable_spec (target source : FieldMeta) :
  lists_mappable (fm_type source) (fm_type target) = Ok (sequence_condition target source).
Proof.
  unfold lists_mappable, sequence_condition.
  destruct (fm_type source), (fm_type target); reflexivity.
Qed.

Lemma lines_append_line (self : MappingMethodSourceCode) (l : string) :
  lines (append_line self l) = lines self ++ [l].
Proof. reflexivity. Qed.

Lemma lines_emit (self : MappingMethodSourceCode) (s : Stmt) :
  lines (emit self s) = lines self ++ render_stmt s.
Proof.
  unfold emit, render_stmt. destruct (s_guard s); simpl;
    rewrite <- ?app_assoc; reflexivity.
Qed.

Lemma methods_emit (self : MappingMethodSourceCode) (s : Stmt) :
  methods (emit self s) = methods self.
Proof. unfold emit, render_stmt. destruct (s_guard s); reflexivity. Qed.

Lemma source_cls_emit (self : MappingMethodSourceCode) (s : Stmt) :
  source_cls (emit self s) = source_cls self.
Proof. unfold emit, render_stmt. destruct (s_guard s); reflexivity. Qed.

Lemma target_cls_emit (self : MappingMethodSourceCode) (s : Stmt) :
  target_cls (emit self s) = target_cls self.
Proof. unfold emit, render_stmt. destruct (s_guard s); reflexivity. Qed.

(** Each emitting method appends the lines of one statement. *)
Lemma add_assignment_emit (self : MappingMethodSourceCode) (target source : FieldMeta)
    (only_if_not_None only_if_set : bool) :
  only_if_not_None && only_if_set = false ->
  add_assignment self target source only_if_not_None only_if_set
  = emit self (stmt_assignment target source only_if_not_None only_if_set).
Proof. destruct only_if_not_None, only_if_set; try discriminate; reflexivity. Qed.

Lemma add_recursive_emit (self : MappingMethodSourceCode) (target source : FieldMeta)
    (only_if_set if_None : bool) :
  add_recursive self target source only_if_set if_None
  = emit self (stmt_recursive target source only_if_set if_None).
Proof. destruct only_if_set, if_None; reflexivity. Qed.

Lemma add_recursive_list_emit (self : MappingMethodSourceCode) (target source : FieldMeta)
    (item : PyType) (if_None only_if_not_None only_if_set : bool) :
  fm_type target = TList item ->
  only_if_not_None && only_if_set = false ->
  add_recursive_list self target source if_None only_if_not_None only_if_set
  = Ok (emit self (stmt_recursive_list target source item
                     if_None only_if_not_None only_if_set)).
Proof.
  intros Ht. unfold add_recursive_list. rewrite Ht. simpl.
  destruct if_None, only_if_not_None, only_if_set; try discriminate; reflexivity.
Qed.

Lemma add_function_call_emit (self : MappingMethodSourceCode) (hex : string)
    (target : FieldMeta) (function : PyFunction) :
  add_function_call self hex target function
  = emit (set_method self ("_" +:+ hex)
            (if Nat.eqb (fn_params function) 0
             then staticmethod function else method function))
         (stmt_function_call hex target).
Proof. unfold add_function_call. destruct (Nat.eqb _ 0); reflexivity. Qed.

Lemma sequence_condition_TList (target source : FieldMeta) :
  sequence_condition target source = true ->
  exists X Y, fm_type source = TList X /\ fm_type target = TList Y
              /\ is_mappable_to X Y = true.
Proof.
  unfold sequence_condition.
  destruct (fm_type source) as [|X], (fm_type target) as [|Y]; try discriminate.
  eauto.
Qed.

Lemma add_mapping_strategy (self : MappingMethodSourceCode) (hex : string)
    (target : FieldMeta) (source : Source) :
  add_mapping self hex target source
  = (s <- strategy self hex target source ;; Ok (emit (register self hex source) s)).
Proof.
  destruct source as [source | function];
    [|simpl; rewrite add_function_call_emit; reflexivity].
  unfold add_mapping, strategy.
  rewrite maintain_unset_spec, lists_mappable_spec.
  unfold spec_row3, spec_row4, spec_row5, spec_row6, null_into_non_null,
    disallow_none, cannot_convert, register.
  cbn [bind].
  rewrite !add_recursive_emit, !add_assignment_emit by reflexivity.
  destruct (sequence_condition target source) eqn:Hq.
  - apply sequence_condition_TList in Hq as (X & Y & _ & HY & _).
    rewrite !(add_recursive_list_emit _ _ _ Y) by (exact HY || reflexivity).
    rewrite HY. cbn [get_args index0 bind].
    destruct (PyType_eqb (TList Y) (fm_type source)), (allow_none source),
      (allow_none target), (required target), (explicit_set_condition self target),
      (is_mappable_to (fm_type source) (TList Y)); reflexivity.
  - destruct (PyType_eqb (fm_type target) (fm_type source)), (allow_none source),
      (allow_none target), (required target), (explicit_set_condition self target),
      (is_mappable_to (fm_type source) (fm_type target)); reflexivity.
Qed.

(** ** Sequences of calls *)

Lemma strategy_ext (a b : MappingMethodSourceCode) (hex : string)
    (target : FieldMeta) (source : Source) :
  source_cls a = source_cls b -> target_cls a = target_cls b ->
  strategy a hex target source = strategy b hex target source.
Proof.
  intros Hs Ht. destruct source as [source | function]; [|reflexivity].
  unfold strategy, explicit_set_condition, both_track_explicit_set, cannot_convert.
  rewrite Hs, Ht. reflexivity.
Qed.

Lemma strategies_ext (a b : MappingMethodSourceCode) (calls : list MappingCall) :
  source_cls a = source_cls b -> target_cls a = target_cls b ->
  strategies a calls = strategies b calls.
Proof.
  intros Hs Ht. induction calls as [|[[hex target] source] rest IH]; [reflexivity|].
  simpl. rewrite (strategy_ext a b) by assumption. rewrite IH. reflexivity.
Qed.

Lemma add_mappings_strategies (self : MappingMethodSourceCode) (calls : list MappingCall) :
  add_mappings self calls
  = (body <- strategies self calls ;;
     Ok (mkBuilder (source_cls self) (target_cls self)
           (lines self ++ concat (map render_stmt body))
           (helpers_after (methods self) calls))).
Proof.
  revert self. induction calls as [|[[hex target] source] rest IH]; intros self.
  - simpl. rewrite app_nil_r. destruct self; reflexivity.
  - simpl. rewrite add_mapping_strategy.
    destruct (strategy self hex target source) as [s|e] eqn:Hs; [|reflexivity].
    cbn [bind]. rewrite IH.
    rewrite (strategies_ext _ self)
      by (rewrite ?source_cls_emit, ?target_cls_emit; destruct source; reflexivity).
    destruct (strategies self rest) as [body|e]; [|reflexivity].
    cbn [bind]. f_equal.
    rewrite lines_emit, methods_emit, source_cls_emit, target_cls_emit.
    simpl. rewrite <- app_assoc.
    destruct source; reflexivity.
Qed.

(** The text of a builder that began with [__init__] is a routine. *)
Lemma to_str_routine (sc tc : ClassMeta) (body : list Stmt) (m : gmap string Callable) :
  to_str (mkBuilder sc tc (lines (init sc tc) ++ concat (map render_stmt body)) m)
  = render_routine (mkRoutine (cm_name tc) body (alias_name tc)).
Proof. unfold to_str, render_routine. simpl. reflexivity. Qed.

(** ** Running statements *)

Section Semantics.

Context (helpers : gmap string Callable) (call_method : Value -> string -> option Value).

Lemma exec_unguarded (self : Value) (d : gmap string Value) (k : string) (e : Expr) :
  exec helpers call_method self d (mkStmt Unguarded k e)
  = (v ← eval helpers call_method self e; Some (<[k := v]> d)).
Proof. reflexivity. Qed.

Lemma exec_if_set (cls : string) (attrs : list (string * Value)) (fs : list string)
    (d : gmap string Value) (n k : string) (e : Expr) :
  exec helpers call_method (VObj cls attrs (Some fs)) d (mkStmt (IfSet n) k e)
  = if bool_decide (n ∈ fs)
    then v ← eval helpers call_method (VObj cls attrs (Some fs)) e; Some (<[k := v]> d)
    else Some d.
Proof. unfold exec. simpl. destruct (bool_decide (n ∈ fs)); reflexivity. Qed.

Lemma exec_if_not_None (self v : Value) (d : gmap string Value) (n k : string) (e : Expr) :
  getattr self n = Some v ->
  exec helpers call_method self d (mkStmt (IfNotNone n) k e)
  = if is_None v
    then Some d
    else v' ← eval helpers call_method self e; Some (<[k := v']> d).
Proof. intros H. unfold exec. simpl. rewrite H. simpl. destruct (is_None v); reflexivity. Qed.

Lemma exec_all_direct (self : Value) (pairs : list (FieldMeta * FieldMeta))
    (d : gmap string Value) :
  Forall (fun p => fm_name p.1 = fm_name p.2
                   /\ is_Some (getattr self (fm_name p.2))) pairs ->
  exists d', exec_all helpers call_method self d (map (fun p => direct p.1 p.2) pairs)
             = Some d'
             /\ forall k, d' !! k = if bool_decide (k ∈ map (fun p => fm_name p.1) pairs)
                                    then getattr self k else d !! k.
Proof.
  revert d. induction pairs as [|[t s] rest IH]; intros d Hall.
  - exists d. split; [reflexivity|]. intros k. reflexivity.
  - apply Forall_cons in Hall as [[Hn [v Hv]] Hrest]. simpl in Hn, Hv.
    destruct (IH (<[fm_name t := v]> d) Hrest) as (d' & Hrun & Hd').
    exists d'. split.
    + cbn [map exec_all].
      change (direct (t, s).1 (t, s).2)
        with (mkStmt Unguarded (fm_name t) (ESelfAttr (fm_name s))).
      rewrite exec_unguarded.
      cbn [eval]. rewrite Hv. exact Hrun.
    + intros k. rewrite Hd'. simpl.
      destruct (decide (k ∈ map (fun p => fm_name p.1) rest)) as [Hin|Hnin].
      * rewrite !bool_decide_eq_true_2; [reflexivity| |assumption].
        apply elem_of_cons. right. assumption.
      * rewrite (bool_decide_eq_false_2 _ Hnin).
        destruct (decide (k = fm_name t)) as [->|Hne].
        -- rewrite bool_decide_eq_true_2 by (apply elem_of_cons; left; reflexivity).
           rewrite lookup_insert_eq, Hn. symmetry. exact Hv.
        -- rewrite lookup_insert_ne by congruence.
           rewrite bool_decide_eq_false_2; [reflexivity|].
           intros [?|?]%elem_of_cons; contradiction.
Qed.

End Semantics.

(** ** Row 1: direct assignment *)

Lemma spec_row1_strategy (self : MappingMethodSourceCode) (hex : string)
    (target source : FieldMeta) :
  spec_row1 self target source = true ->
  strategy self hex target (SrcField source) = Ok (direct target source).
Proof.
  unfold spec_row1, strategy. rewrite !andb_true_iff, !negb_true_iff.
  intros [[-> ->] ->]. rewrite andb_false_r. reflexivity.
Qed.

Lemma same_shape_row1 (self : MappingMethodSourceCode) (target source : FieldMeta) :
  same_shape target source -> spec_row1 self target source = true.
Proof.
  intros (_ & Ht & Hs & Hta & _). unfold spec_row1, null_into_non_null, explicit_set_condition.
  rewrite Ht, PyType_eqb_refl, Hs, Hta, andb_false_r. reflexivity.
Qed.

Lemma strategies_same_shape (self : MappingMethodSourceCode)
    (pairs : list (FieldMeta * FieldMeta)) :
  Forall (fun p => same_shape p.1 p.2) pairs ->
  strategies self (map field_call pairs) = Ok (map (fun p => direct p.1 p.2) pairs).
Proof.
  induction 1 as [|[t s] rest Hp _ IH]; [reflexivity|].
  change (map field_call ((t, s) :: rest))
    with ((EmptyString, t, SrcField s) :: map field_call rest).
  cbn [strategies].
  rewrite (spec_row1_strategy self EmptyString t s (same_shape_row1 self _ _ Hp)).
  cbn [bind]. rewrite IH. reflexivity.
Qed.

(** C6: for a pair of equal types that is not a nullable source into a
    non-nullable target and to which the explicit-set condition does not
    apply, [add_mapping] appends the one line [d["target"] = self.source],
    which assigns the source instance's value to the target's key whatever
    the instance; and for records of one shape with required, non-null
    fields, the routine built from the pairs returns the target's
    constructor applied to exactly the source instance's values. *)
Theorem C6_direct_assignment :
  (forall (self : MappingMethodSourceCode) (hex : string) (target source : FieldMeta),
      spec_row1 self target source = true ->
      add_mapping self hex target (SrcField source) = Ok (emit self (direct target source))
      /\ lines (emit self (direct target source))
         = lines self ++ [ "    d[" +:+ dq +:+ fm_name target +:+ dq +:+ "] = self."
                           +:+ fm_name source ]
      /\ methods (emit self (direct target source)) = methods self
      /\ forall helpers call_method obj d,
           exec helpers call_method obj d (direct target source)
           = (v ← getattr obj (fm_name source); Some (<[fm_name target := v]> d)))
  /\
  (forall (sc tc : ClassMeta) (pairs : list (FieldMeta * FieldMeta)),
      Forall (fun p => same_shape p.1 p.2) pairs ->
      exists self,
        add_mappings (init sc tc) (map field_call pairs) = Ok self
        /\ to_str self
           = render_routine (mkRoutine (cm_name tc) (map (fun p => direct p.1 p.2) pairs)
                               (alias_name tc))
        /\ forall helpers call_method obj,
             Forall (fun p => is_Some (getattr obj (fm_name p.2))) pairs ->
             exists d,
               run helpers call_method
                   (mkRoutine (cm_name tc) (map (fun p => direct p.1 p.2) pairs)
                      (alias_name tc)) obj
               = Some (mkConstruction (alias_name tc) d)
               /\ forall k, d !! k = if bool_decide (k ∈ map (fun p => fm_name p.1) pairs)
                                     then getattr obj k else None).
Proof.
  split.
  - intros self hex target source Hrow.
    rewrite add_mapping_strategy, (spec_row1_strategy _ _ _ _ Hrow).
    split; [reflexivity|].
    split; [rewrite lines_emit; reflexivity|].
    split; [apply methods_emit|].
    intros helpers call_method obj d. reflexivity.
  - intros sc tc pairs Hall.
    eexists. rewrite add_mappings_strategies, (strategies_same_shape _ _ Hall).
    split; [reflexivity|]. split; [apply to_str_routine|].
    intros helpers call_method obj Hattrs.
    destruct (exec_all_direct helpers call_method obj pairs ∅) as (d & Hrun & Hd).
    + apply Forall_forall. intros p Hp. split.
      * apply (proj1 (Forall_forall _ _) Hall p Hp).
      * apply (proj1 (Forall_forall _ _) Hattrs p Hp).
    + exists d. split.
      * unfold run. simpl. rewrite Hrun. reflexivity.
      * intros k. rewrite Hd, lookup_empty. reflexivity.
Qed.

(** ** Rows 2 and 3: guarded assignment *)

Lemma spec_row2_strategy (self : MappingMethodSourceCode) (hex : string)
    (target source : FieldMeta) :
  spec_row2 self target source = true ->
  strategy self hex target (SrcField source)
  = Ok (stmt_assignment target source false (allow_none source)).
Proof.
  unfold spec_row2, strategy. rewrite !andb_true_iff, !negb_true_iff.
  intros [[-> ->] ->]. cbn [andb negb]. rewrite andb_true_r. reflexivity.
Qed.

(** C1, as amended: for a pair of equal types whose kinds both track
    explicitly set fields, whose target is nullable and not required and
    whose source is nullable too, [add_mapping] appends the assignment under
    the line [if 'source' in self.__fields_set__:]; run on an instance, the
    statement assigns the source value when the source name is among the
    explicitly set names and leaves the mapping as it was otherwise. *)
Theorem C1_explicit_set_assignment (self : MappingMethodSourceCode) (hex : string)
    (target source : FieldMeta) :
  spec_row2 self target source = true ->
  allow_none source = true ->
  let s := mkStmt (IfSet (fm_name source)) (fm_name target) (ESelfAttr (fm_name source)) in
  add_mapping self hex target (SrcField source) = Ok (emit self s)
  /\ lines (emit self s)
     = lines self ++ [ "    if '" +:+ fm_name source +:+ "' in self.__fields_set__:";
                       "        d[" +:+ dq +:+ fm_name target +:+ dq +:+ "] = self."
                       +:+ fm_name source ]
  /\ forall helpers call_method cls attrs fields_set d,
       exec helpers call_method (VObj cls attrs (Some fields_set)) d s
       = if bool_decide (fm_name source ∈ fields_set)
         then v ← assoc (fm_name source) attrs; Some (<[fm_name target := v]> d)
         else Some d.
Proof.
  intros Hrow Hsrc s.
  rewrite add_mapping_strategy, (spec_row2_strategy _ _ _ _ Hrow), Hsrc.
  split; [reflexivity|]. split; [rewrite lines_emit; reflexivity|].
  intros helpers call_method cls attrs fields_set d. apply exec_if_set.
Qed.

Lemma spec_row3_strategy (self : MappingMethodSourceCode) (hex : string)
    (target source : FieldMeta) :
  spec_row3 target source = true ->
  strategy self hex target (SrcField source) = Ok (stmt_assignment target source true false).
Proof.
  intros Hrow. unfold strategy, null_into_non_null. rewrite Hrow.
  unfold spec_row3 in Hrow. revert Hrow. rewrite !andb_true_iff, !negb_true_iff.
  intros [[[-> ->] ->] _]. reflexivity.
Qed.

(** C4: for a pair of equal types with a nullable source, a non-nullable
    target and a target that is not required, [add_mapping] appends the
    assignment under the line [if self.source is not None:]; run on an
    instance, the statement assigns the source value when it is not null and
    leaves the mapping as it was when it is null. *)
Theorem C4_not_None_assignment (self : MappingMethodSourceCode) (hex : string)
    (target source : FieldMeta) :
  spec_row3 target source = true ->
  let s := mkStmt (IfNotNone (fm_name source)) (fm_name target)
             (ESelfAttr (fm_name source)) in
  add_mapping self hex target (SrcField source) = Ok (emit self s)
  /\ lines (emit self s)
     = lines self ++ [ "    if self." +:+ fm_name source +:+ " is not None:";
                       "        d[" +:+ dq +:+ fm_name target +:+ dq +:+ "] = self."
                       +:+ fm_name source ]
  /\ forall helpers call_method obj d v,
       getattr obj (fm_name source) = Some v ->
       exec helpers call_method obj d s
       = Some (if is_None v then d else <[fm_name target := v]> d).
Proof.
  intros Hrow s.
  rewrite add_mapping_strategy, (spec_row3_strategy _ _ _ _ Hrow).
  split; [reflexivity|]. split; [rewrite lines_emit; reflexivity|].
  intros helpers call_method obj d v Hv.
  unfold s. rewrite (exec_if_not_None _ _ _ _ _ _ _ _ Hv). cbn [eval]. rewrite Hv.
  destruct (is_None v); reflexivity.
Qed.

(** ** No row: the error *)


(** ** Rows 4 to 6: nested routines *)

Lemma spec_row4_strategy (self : MappingMethodSourceCode) (hex : string)
    (target source : FieldMeta) :
  spec_row4 target source = true ->
  fm_type target <> fm_type source ->
  strategy self hex target (SrcField source)
  = Ok (stmt_recursive target source
          (allow_none source && explicit_set_condition self target) (allow_none source)).
Proof.
  intros Hrow Hne. unfold strategy.
  rewrite (PyType_eqb_neq _ _ Hne), Hrow. unfold spec_row3.
  rewrite (PyType_eqb_neq _ _ Hne). reflexivity.
Qed.

Section NestedSemantics.

Context (helpers : gmap string Callable) (call_method : Value -> string -> option Value).

Lemma eval_none_or (obj v : Value) (if_None : bool) (name : string) (e : Expr) :
  getattr obj name = Some v ->
  eval helpers call_method obj (none_or if_None name e)
  = if if_None && is_None v then Some VNone else eval helpers call_method obj e.
Proof.
  intros Hv. destruct if_None; [|reflexivity].
  cbn [none_or eval]. rewrite Hv. reflexivity.
Qed.

Lemma eval_map_list (obj : Value) (name func : string) (xs ys : list Value) :
  getattr obj name = Some (VList xs) ->
  Forall2 (fun x y => call_method x func = Some y) xs ys ->
  eval helpers call_method obj (EMapList name func) = Some (VList ys).
Proof.
  intros Hv Hall. cbn [eval]. rewrite Hv. cbn.
  apply mapM_Some in Hall. rewrite Hall. reflexivity.
Qed.

End NestedSemantics.

(** C2, as amended: for a pair of different types with a conversion routine
    from the source's type to the target's that is not a nullable source
    into a non-nullable target, [add_mapping] appends the assignment of
    [self.source._map_to_T()], T the target type's name; when the source is
    nullable the right-hand side is [None if self.source is None else ...],
    which yields null on a null value without calling anything; and the
    assignment stands under the explicit-set guard exactly when the source
    is nullable and the explicit-set condition holds. *)
Theorem C2_recursive (self : MappingMethodSourceCode) (hex : string)
    (target source : FieldMeta) :
  spec_row4 target source = true ->
  fm_type target <> fm_type source ->
  let unset := allow_none source && explicit_set_condition self target in
  let call := EMapCall (fm_name source) ("_map_to_" +:+ dunder_name (fm_type target)) in
  let s := mkStmt (if unset then IfSet (fm_name source) else Unguarded) (fm_name target)
             (if allow_none source then ENoneOr (fm_name source) call else call) in
  add_mapping self hex target (SrcField source) = Ok (emit self s)
  /\ lines (emit self s)
     = lines self
       ++ (if unset
           then [ "    if '" +:+ fm_name source +:+ "' in self.__fields_set__:" ]
           else [])
       ++ [ spaces (if unset then 8 else 4)
            +:+ "d[" +:+ dq +:+ fm_name target +:+ dq +:+ "] = "
            +:+ (if allow_none source
                 then "None if self." +:+ fm_name source +:+ " is None else "
                 else EmptyString)
            +:+ "self." +:+ fm_name source +:+ "._map_to_"
            +:+ dunder_name (fm_type target) +:+ "()" ]
  /\ (forall helpers call_method obj v,
        getattr obj (fm_name source) = Some v ->
        eval helpers call_method obj (s_value s)
        = if allow_none source && is_None v
          then Some VNone
          else call_method v ("_map_to_" +:+ dunder_name (fm_type target)))
  /\ (forall helpers call_method cls attrs fields_set d,
        exec helpers call_method (VObj cls attrs (Some fields_set)) d s
        = if unset && negb (bool_decide (fm_name source ∈ fields_set))
          then Some d
          else v ← eval helpers call_method (VObj cls attrs (Some fields_set)) (s_value s);
               Some (<[fm_name target := v]> d)).
Proof.
  intros Hrow Hne unset call s.
  rewrite add_mapping_strategy, (spec_row4_strategy _ _ _ _ Hrow Hne).
  split; [reflexivity|]. split; [|split].
  - rewrite lines_emit. unfold s, render_stmt. cbn [s_guard s_key s_value].
    destruct unset, (allow_none source); cbn; rewrite ?append_assoc; reflexivity.
  - intros helpers call_method obj v Hv.
    change (s_value s)
      with (none_or (allow_none source) (fm_name source) call).
    rewrite (eval_none_or _ _ _ _ _ _ _ Hv). unfold call. cbn [eval].
    rewrite Hv. reflexivity.
  - intros helpers call_method cls attrs fields_set d. unfold s.
    destruct unset; [|reflexivity].
    rewrite exec_if_set. destruct (bool_decide _); reflexivity.
Qed.

Lemma spec_row5_strategy (self : MappingMethodSourceCode) (hex : string)
    (target source : FieldMeta) (Y : PyType) :
  spec_row5 target source = true ->
  fm_type target = TList Y ->
  fm_type target <> fm_type source ->
  strategy self hex target (SrcField source)
  = Ok (stmt_recursive_list target source Y (allow_none source) false
          (allow_none source && explicit_set_condition self target)).
Proof.
  intros Hrow HY Hne. unfold strategy.
  rewrite (PyType_eqb_neq _ _ Hne), Hrow. unfold spec_row3, spec_row4.
  rewrite (PyType_eqb_neq _ _ Hne).
  unfold spec_row5 in Hrow. apply andb_true_iff in Hrow as [Hseq _].
  apply sequence_condition_TList in Hseq as (X & Y' & HX & _ & _).
  rewrite HX, HY. reflexivity.
Qed.

Lemma spec_row6_strategy (self : MappingMethodSourceCode) (hex : string)
    (target source : FieldMeta) (Y : PyType) :
  spec_row6 target source = true ->
  fm_type target = TList Y ->
  fm_type target <> fm_type source ->
  strategy self hex target (SrcField source)
  = Ok (stmt_recursive_list target source Y true true false).
Proof.
  intros Hrow HY Hne. unfold strategy.
  rewrite (PyType_eqb_neq _ _ Hne), Hrow. unfold spec_row3, spec_row4, spec_row5.
  rewrite (PyType_eqb_neq _ _ Hne).
  unfold spec_row6 in Hrow. revert Hrow. rewrite !andb_true_iff, !negb_true_iff.
  intros [[[Hseq Hs] Ht] _].
  apply sequence_condition_TList in Hseq as (X & Y' & HX & _ & _).
  unfold null_into_non_null. rewrite HX, HY, Hs, Ht. cbn. rewrite andb_false_r. reflexivity.
Qed.

(** C3, as amended: for a pair of different sequence types with a
    conversion routine between the element types, when the pair is not a
    nullable source into a non-nullable target [add_mapping] appends the
    assignment of [[x._map_to_Y() for x in self.source]], Y the target
    element type's name, which maps every element in order, yields null on a
    null sequence when the source is nullable, and stands under the
    explicit-set guard exactly when the source is nullable and the
    explicit-set condition holds; when the source is nullable, the target
    is not and the target is not required, it appends the same assignment
    under [if self.source is not None:], which leaves the mapping as it was
    on a null sequence. *)
Theorem C3_recursive_list (self : MappingMethodSourceCode) (hex : string)
    (target source : FieldMeta) (Y : PyType) :
  fm_type target = TList Y ->
  fm_type target <> fm_type source ->
  let each := EMapList (fm_name source) ("_map_to_" +:+ dunder_name Y) in
  let text := "[x._map_to_" +:+ dunder_name Y +:+ "() for x in self."
              +:+ fm_name source +:+ "]" in
  (spec_row5 target source = true ->
   let unset := allow_none source && explicit_set_condition self target in
   let s := mkStmt (if unset then IfSet (fm_name source) else Unguarded) (fm_name target)
              (if allow_none source then ENoneOr (fm_name source) each else each) in
   add_mapping self hex target (SrcField source) = Ok (emit self s)
   /\ lines (emit self s)
      = lines self
        ++ (if unset
            then [ "    if '" +:+ fm_name source +:+ "' in self.__fields_set__:" ]
            else [])
        ++ [ spaces (if unset then 8 else 4)
             +:+ "d[" +:+ dq +:+ fm_name target +:+ dq +:+ "] = "
             +:+ (if allow_none source
                  then "None if self." +:+ fm_name source +:+ " is None else "
                  else EmptyString)
             +:+ text ]
   /\ (forall helpers call_method obj,
         allow_none source = true ->
         getattr obj (fm_name source) = Some VNone ->
         eval helpers call_method obj (s_value s) = Some VNone)
   /\ (forall helpers call_method obj xs ys,
         getattr obj (fm_name source) = Some (VList xs) ->
         Forall2 (fun x y => call_method x ("_map_to_" +:+ dunder_name Y) = Some y) xs ys ->
         eval helpers call_method obj (s_value s) = Some (VList ys))
   /\ (forall helpers call_method cls attrs fields_set d,
         exec helpers call_method (VObj cls attrs (Some fields_set)) d s
         = if unset && negb (bool_decide (fm_name source ∈ fields_set))
           then Some d
           else v ← eval helpers call_method (VObj cls attrs (Some fields_set)) (s_value s);
                Some (<[fm_name target := v]> d)))
  /\
  (spec_row6 target source = true ->
   let s := mkStmt (IfNotNone (fm_name source)) (fm_name target)
              (ENoneOr (fm_name source) each) in
   add_mapping self hex target (SrcField source) = Ok (emit self s)
   /\ lines (emit self s)
      = lines self
        ++ [ "    if self." +:+ fm_name source +:+ " is not None:";
             "        d[" +:+ dq +:+ fm_name target +:+ dq +:+ "] = None if self."
             +:+ fm_name source +:+ " is None else " +:+ text ]
   /\ (forall helpers call_method obj d,
         getattr obj (fm_name source) = Some VNone ->
         exec helpers call_method obj d s = Some d)
   /\ (forall helpers call_method obj d xs ys,
         getattr obj (fm_name source) = Some (VList xs) ->
         Forall2 (fun x y => call_method x ("_map_to_" +:+ dunder_name Y) = Some y) xs ys ->
         exec helpers call_method obj d s = Some (<[fm_name target := VList ys]> d))).
Proof.
  intros HY Hne each text. split.
  - intros Hrow unset s.
    rewrite add_mapping_strategy, (spec_row5_strategy _ _ _ _ Y Hrow HY Hne).
    split; [reflexivity|]. split; [|split; [|split]].
    + rewrite lines_emit. unfold s, text, each.
      destruct unset, (allow_none source); same_text.
    + intros helpers call_method obj Hs Hv. unfold s. rewrite Hs.
      cbn [s_value eval]. rewrite Hv. reflexivity.
    + intros helpers call_method obj xs ys Hv Hall.
      change (s_value s) with (none_or (allow_none source) (fm_name source) each).
      rewrite (eval_none_or _ _ _ _ _ _ _ Hv), andb_false_r.
      apply (eval_map_list _ _ _ _ _ _ _ Hv Hall).
    + intros helpers call_method cls attrs fields_set d. unfold s.
      destruct unset; [|reflexivity].
      rewrite exec_if_set. destruct (bool_decide _); reflexivity.
  - intros Hrow s.
    rewrite add_mapping_strategy, (spec_row6_strategy _ _ _ _ Y Hrow HY Hne).
    split; [reflexivity|]. split; [|split].
    + rewrite lines_emit. unfold s, text, each. same_text.
    + intros helpers call_method obj d Hv. unfold s.
      rewrite (exec_if_not_None _ _ _ _ _ _ _ _ Hv). reflexivity.
    + intros helpers call_method obj d xs ys Hv Hall. unfold s.
      rewrite (exec_if_not_None _ _ _ _ _ _ _ _ Hv). cbn [is_None eval].
      rewrite Hv. cbn [mbind option_bind is_None].
      change (eval helpers call_method obj each ≫= (fun v' => Some (<[fm_name target := v']> d))
              = Some (<[fm_name target := VList ys]> d)).
      rewrite (eval_map_list _ _ _ _ _ _ _ Hv Hall). reflexivity.
Qed.

(** ** Helpers *)

Lemma underscore_inj (a b : string) : "_" +:+ a = "_" +:+ b -> a = b.
Proof. intros H. injection H. auto. Qed.

Lemma helpers_after_notin (m : gmap string Callable) (calls : list MappingCall)
    (hex : string) :
  hex ∉ draws calls ->
  helpers_after m calls !! ("_" +:+ hex) = m !! ("_" +:+ hex).
Proof.
  revert m. induction calls as [|[[h t] [s|f]] rest IH]; intros m Hnin;
    [reflexivity|apply IH, Hnin|].
  cbn [draws] in Hnin. apply not_elem_of_cons in Hnin as [Hne Hnin].
  cbn [helpers_after]. rewrite IH by exact Hnin.
  apply lookup_insert_ne. intros Heq. apply underscore_inj in Heq.
  apply Hne. symmetry. exact Heq.
Qed.

Lemma methods_add_mappings (self self' : MappingMethodSourceCode)
    (calls : list MappingCall) :
  add_mappings self calls = Ok self' ->
  methods self' = helpers_after (methods self) calls.
Proof.
  rewrite add_mappings_strategies.
  destruct (strategies self calls); [|discriminate].
  cbn [bind]. intros [= <-]. reflexivity.
Qed.


(** ** The text of the routine *)

(** C7: the text [__str__] returns is the builder's lines followed by the
    one line that returns the target's [alias_name] called on the entries of
    [d] as keyword arguments; for a builder that [add_mapping] calls filled,
    it is the routine made of the header taking the source instance, the
    line [d = {}], the lines of the statements the calls stand for and that
    return, and running it builds [d] by those statements from the empty
    mapping and constructs with [alias_name]. *)
Theorem C7_finalize :
  (forall self : MappingMethodSourceCode,
      to_str self
      = join nl (lines self
                 ++ [ "    return " +:+ alias_name (target_cls self) +:+ "(**d)" ]))
  /\
  (forall (sc tc : ClassMeta) (calls : list MappingCall) (self : MappingMethodSourceCode),
      add_mappings (init sc tc) calls = Ok self ->
      exists body,
        strategies (init sc tc) calls = Ok body
        /\ to_str self
           = join nl ([ "def convert(self) -> " +:+ dq +:+ cm_name tc +:+ dq +:+ ":";
                        "    d = {}" ]
                      ++ concat (map render_stmt body)
                      ++ [ "    return " +:+ alias_name tc +:+ "(**d)" ])
        /\ to_str self = render_routine (mkRoutine (cm_name tc) body (alias_name tc))
        /\ forall call_method obj,
             run (methods self) call_method (mkRoutine (cm_name tc) body (alias_name tc)) obj
             = (d ← exec_all (methods self) call_method obj ∅ body;
                Some (mkConstruction (alias_name tc) d))).
Proof.
  split; [reflexivity|].
  intros sc tc calls self. rewrite add_mappings_strategies.
  destruct (strategies (init sc tc) calls) as [body|e]; [|discriminate].
  cbn [bind]. intros [= <-]. exists body.
  split; [reflexivity|]. split; [|split].
  - exact (to_str_routine sc tc body _).
  - exact (to_str_routine sc tc body _).
  - reflexivity.
Qed.

(** ** Append only *)

Lemma perform_appends (self self' : MappingMethodSourceCode) (c : BuilderCall) :
  perform self c = Ok self' ->
  target_cls self' = target_cls self /\ exists new, lines self' = lines self ++ new.
Proof.
  destruct c as [t s n u | t s u n | t s n nn u | hex t f | hex t s]; cbn [perform].
  - intros [= <-]. split; [destruct n, u; reflexivity|].
    destruct n, u; eexists; cbn; rewrite <- ?app_assoc; reflexivity.
  - intros [= <-]. rewrite add_recursive_emit, target_cls_emit, lines_emit. eauto.
  - unfold add_recursive_list. destruct (index0 (get_args (fm_type t))); [|discriminate].
    cbn [bind].
    destruct n, nn, u; intros [= <-];
      (split; [reflexivity|eexists; cbn; rewrite <- ?app_assoc; reflexivity]).
  - intros [= <-]. rewrite add_function_call_emit, target_cls_emit, lines_emit. eauto.
  - rewrite add_mapping_strategy. destruct (strategy self hex t s); [|discriminate].
    cbn [bind]. intros [= <-]. rewrite target_cls_emit, lines_emit.
    split; [destruct s; reflexivity|]. exists (render_stmt a). destruct s; reflexivity.
Qed.

Lemma after_call_appends (self : MappingMethodSourceCode) (c : BuilderCall) :
  target_cls (after_call self c) = target_cls self
  /\ exists new, lines (after_call self c) = lines self ++ new.
Proof.
  unfold after_call. destruct (perform self c) as [self'|e] eqn:Hp.
  - apply (perform_appends _ _ _ Hp).
  - split; [reflexivity|]. exists []. rewrite app_nil_r. reflexivity.
Qed.

Lemma after_calls_appends (self : MappingMethodSourceCode) (cs : list BuilderCall) :
  target_cls (after_calls self cs) = target_cls self
  /\ exists new, lines (after_calls self cs) = lines self ++ new.
Proof.
  revert self. induction cs as [|c cs IH]; intros self.
  - split; [reflexivity|]. exists []. rewrite app_nil_r. reflexivity.
  - cbn [after_calls foldl]. fold (after_calls (after_call self c) cs).
    destruct (IH (after_call self c)) as [Ht [new2 Hl]].
    destruct (after_call_appends self c) as [Ht1 [new1 Hl1]].
    split; [congruence|]. exists (new1 ++ new2).
    rewrite Hl, Hl1, app_assoc. reflexivity.
Qed.

(** C10: whatever calls of the five emitting methods follow [__init__], a
    call that raises leaving the builder as it was, the lines after some of
    the calls are a prefix of the lines after more of them, they begin with
    the header and [d = {}], and the finalized text is those lines followed
    by the return statement alone. *)
Theorem C10_append_only (sc tc : ClassMeta) (cs1 cs2 : list BuilderCall) :
  exists body1 body2,
    lines (after_calls (init sc tc) cs1) = header tc ++ body1
    /\ lines (after_calls (init sc tc) (cs1 ++ cs2)) = header tc ++ body1 ++ body2
    /\ to_str (after_calls (init sc tc) (cs1 ++ cs2))
       = join nl (header tc ++ body1 ++ body2 ++ [return_statement tc]).
Proof.
  destruct (after_calls_appends (init sc tc) cs1) as [Ht1 [body1 H1]].
  destruct (after_calls_appends (after_calls (init sc tc) cs1) cs2) as [Ht2 [body2 H2]].
  exists body1, body2.
  assert (Hall : lines (after_calls (init sc tc) (cs1 ++ cs2)) = header tc ++ body1 ++ body2).
  { unfold after_calls in *. rewrite foldl_app, H2, H1.
    rewrite <- app_assoc. reflexivity. }
  split; [exact H1|]. split; [exact Hall|].
  unfold to_str. rewrite Hall.
  replace (target_cls (after_calls (init sc tc) (cs1 ++ cs2))) with tc.
  - unfold return_statement. rewrite <- !app_assoc. reflexivity.
  - unfold after_calls in *. rewrite foldl_app, Ht2, Ht1. reflexivity.
Qed.

(** ** Two syntheses of the same requests *)

Lemma eval_helper_free (H1 H2 : gmap string Callable)
    (call_method : Value -> string -> option Value) (obj : Value) (e : Expr) :
  helper_free e = true ->
  eval H1 call_method obj e = eval H2 call_method obj e.
Proof.
  induction e as [n | n | n f | n f | n e IH]; cbn [helper_free eval];
    try reflexivity; try discriminate.
  intros He. rewrite (IH He). reflexivity.
Qed.

Lemma exec_helper_free (H1 H2 : gmap string Callable)
    (call_method : Value -> string -> option Value) (obj : Value)
    (d : gmap string Value) (s : Stmt) :
  helper_free (s_value s) = true ->
  exec H1 call_method obj d s = exec H2 call_method obj d s.
Proof.
  intros He. unfold exec. rewrite (eval_helper_free H1 H2 _ _ _ He). reflexivity.
Qed.

Lemma strategy_field_helper_free (self : MappingMethodSourceCode) (hex : string)
    (target source : FieldMeta) (s : Stmt) :
  strategy self hex target (SrcField source) = Ok s ->
  helper_free (s_value s) = true.
Proof.
  unfold strategy.
  repeat match goal with
         | |- context [if ?b then _ else _] => destruct b
         end;
    try discriminate;
    try (destruct (index0 (get_args (fm_type target))); [|discriminate]; cbn [bind]);
    intros [= <-]; cbn; destruct (allow_none source); reflexivity.
Qed.

Lemma helpers_after_lookup (m : gmap string Callable) (calls : list MappingCall)
    (hex : string) (target : FieldMeta) (function : PyFunction) :
  NoDup (draws calls) ->
  (hex, target, SrcFunction function) ∈ calls ->
  helpers_after m calls !! ("_" +:+ hex) = Some (helper_of function).
Proof.
  revert m. induction calls as [|[[h t] [s|f]] rest IH]; intros m Hnd Hin.
  - apply elem_of_nil in Hin. contradiction.
  - apply elem_of_cons in Hin as [Heq|Hin]; [discriminate|].
    cbn [helpers_after]. apply IH; assumption.
  - cbn [draws] in Hnd. apply NoDup_cons in Hnd as [Hnin Hnd].
    cbn [helpers_after]. apply elem_of_cons in Hin as [Heq|Hin].
    + injection Heq as -> -> ->.
      rewrite helpers_after_notin by exact Hnin. apply lookup_insert_eq.
    + apply IH; assumption.
Qed.

Lemma strategies_agree (self : MappingMethodSourceCode) (H1 H2 : gmap string Callable)
    (call_method : Value -> string -> option Value) (calls1 calls2 : list MappingCall) :
  same_requests calls1 calls2 ->
  (forall hex t f, (hex, t, SrcFunction f) ∈ calls1 ->
                   H1 !! ("_" +:+ hex) = Some (helper_of f)) ->
  (forall hex t f, (hex, t, SrcFunction f) ∈ calls2 ->
                   H2 !! ("_" +:+ hex) = Some (helper_of f)) ->
  match strategies self calls1, strategies self calls2 with
  | Ok body1, Ok body2 =>
      forall obj d, exec_all H1 call_method obj d body1 = exec_all H2 call_method obj d body2
  | Raise e1, Raise e2 => e1 = e2
  | _, _ => False
  end.
Proof.
  induction 1 as [|[[h1 t1] src1] [[h2 t2] src2] rest1 rest2 [Ht Hsrc] _ IH];
    intros Hin1 Hin2; [intros obj d; reflexivity|].
  cbn in Ht, Hsrc. subst t2 src2. cbn [strategies].
  assert (Htail : match strategies self rest1, strategies self rest2 with
                  | Ok body1, Ok body2 =>
                      forall obj d, exec_all H1 call_method obj d body1
                                    = exec_all H2 call_method obj d body2
                  | Raise e1, Raise e2 => e1 = e2
                  | _, _ => False
                  end).
  { apply IH; intros hex t f Hin; [apply (Hin1 hex t f)|apply (Hin2 hex t f)];
      apply elem_of_cons; right; exact Hin. }
  destruct src1 as [s|f].
  - change (strategy self h2 t1 (SrcField s)) with (strategy self h1 t1 (SrcField s)).
    destruct (strategy self h1 t1 (SrcField s)) as [st|e] eqn:Hst; [|reflexivity].
    cbn [bind].
    destruct (strategies self rest1) as [b1|e1], (strategies self rest2) as [b2|e2];
      cbn [bind]; try exact Htail.
    intros obj d. cbn [exec_all].
    rewrite (exec_helper_free H1 H2 _ _ _ _ (strategy_field_helper_free _ _ _ _ _ Hst)).
    destruct (exec H2 call_method obj d st) as [d'|]; [apply Htail|reflexivity].
  - cbn [strategy bind].
    destruct (strategies self rest1) as [b1|e1], (strategies self rest2) as [b2|e2];
      cbn [bind]; try exact Htail.
    intros obj d. cbn [exec_all].
    assert (Hexec : exec H1 call_method obj d (stmt_function_call h1 t1)
                    = exec H2 call_method obj d (stmt_function_call h2 t1)).
    { unfold exec. cbn [stmt_function_call s_guard s_value s_key guard_holds eval].
      rewrite (Hin1 h1 t1 f) by (apply elem_of_cons; left; reflexivity).
      rewrite (Hin2 h2 t1 f) by (apply elem_of_cons; left; reflexivity).
      reflexivity. }
    rewrite Hexec.
    destruct (exec H2 call_method obj d (stmt_function_call h2 t1)) as [d'|];
      [apply Htail|reflexivity].
Qed.

(** C9: two syntheses of the same requests, whose draws of [uuid4] do not
    repeat within a synthesis but may differ between the two, either both
    raise the same error or both return a builder; the two texts are the
    routines of the statements the calls stand for, and on every source
    instance the two routines, each with its own helper registry, return
    the same construction or both raise. *)
Theorem C9_determinism (sc tc : ClassMeta) (calls1 calls2 : list MappingCall) :
  same_requests calls1 calls2 ->
  NoDup (draws calls1) ->
  NoDup (draws calls2) ->
  match add_mappings (init sc tc) calls1, add_mappings (init sc tc) calls2 with
  | Ok self1, Ok self2 =>
      exists body1 body2,
        strategies (init sc tc) calls1 = Ok body1
        /\ strategies (init sc tc) calls2 = Ok body2
        /\ to_str self1 = render_routine (mkRoutine (cm_name tc) body1 (alias_name tc))
        /\ to_str self2 = render_routine (mkRoutine (cm_name tc) body2 (alias_name tc))
        /\ forall call_method obj,
             run (methods self1) call_method
                 (mkRoutine (cm_name tc) body1 (alias_name tc)) obj
             = run (methods self2) call_method
                   (mkRoutine (cm_name tc) body2 (alias_name tc)) obj
  | Raise e1, Raise e2 => e1 = e2
  | _, _ => False
  end.
Proof.
  intros Hsame Hnd1 Hnd2. rewrite !add_mappings_strategies.
  assert (Hagree : forall call_method,
             match strategies (init sc tc) calls1, strategies (init sc tc) calls2 with
             | Ok body1, Ok body2 =>
                 forall obj d,
                   exec_all (helpers_after ∅ calls1) call_method obj d body1
                   = exec_all (helpers_after ∅ calls2) call_method obj d body2
             | Raise e1, Raise e2 => e1 = e2
             | _, _ => False
             end).
  { intros call_method. apply strategies_agree; [exact Hsame| |];
      intros hex t f Hin; eapply helpers_after_lookup; eassumption. }
  destruct (strategies (init sc tc) calls1) as [body1|e1],
           (strategies (init sc tc) calls2) as [body2|e2]; cbn [bind];
    try exact (Hagree (fun _ _ => None)).
  exists body1, body2. split; [reflexivity|]. split; [reflexivity|].
  split; [exact (to_str_routine sc tc body1 _)|].
  split; [exact (to_str_routine sc tc body2 _)|].
  intros call_method obj. unfold run. cbn [r_body r_constructor methods].
  rewrite (Hagree call_method obj ∅). reflexivity.
Qed.

(** ** The claims on concrete field pairs *)

Import Examples.

(** C1 as stated fails: both kinds track explicitly set fields, the target
    [count] is nullable and not required, the source [count] is not
    nullable; the line is appended without a guard, and on an instance built
    without [count] the target key is set. *)
Lemma C1_counterexample :
  spec_row2 builder count_optional count_default = true
  /\ add_mapping builder EmptyString count_optional (SrcField count_default)
     = Ok (emit builder (direct count_optional count_default))
  /\ add_mapping builder EmptyString count_optional (SrcField count_default)
     <> Ok (emit builder (mkStmt (IfSet "count") "count" (ESelfAttr "count")))
  /\ lines (emit builder (direct count_optional count_default))
     = header Bar_meta ++ [ "    d[" +:+ dq +:+ "count" +:+ dq +:+ "] = self.count" ]
  /\ exec ∅ call_method unset_count ∅ (direct count_optional count_default)
     = Some (<["count" := VInt 7]> ∅).
Proof.
  split; [reflexivity|]. split; [reflexivity|]. split; [|split; reflexivity].
  intros H. apply (f_equal line_count) in H. vm_compute in H. discriminate.
Qed.

Lemma C1_witness :
  spec_row2 builder count_optional count_optional = true
  /\ allow_none count_optional = true
  /\ add_mapping builder EmptyString count_optional (SrcField count_optional)
     = Ok (emit builder (mkStmt (IfSet "count") "count" (ESelfAttr "count")))
  /\ exec ∅ call_method unset_count ∅ (mkStmt (IfSet "count") "count" (ESelfAttr "count"))
     = Some ∅
  /\ exec ∅ call_method null_count ∅ (mkStmt (IfSet "count") "count" (ESelfAttr "count"))
     = Some (<["count" := VNone]> ∅).
Proof.
  destruct (C1_explicit_set_assignment builder EmptyString count_optional count_optional
              eq_refl eq_refl) as (Hadd & _ & Hexec).
  split; [reflexivity|]. split; [reflexivity|]. split; [exact Hadd|].
  split; [exact (Hexec ∅ call_method _ _ _ ∅)|exact (Hexec ∅ call_method _ _ _ ∅)].
Defined.

(** C2 as stated fails twice.  With a source [bar] that is not nullable, a
    nullable target that is not required and kinds that both track
    explicitly set fields, the call of the nested routine is appended
    without a guard and sets the target key on an instance built without
    [bar]; and for a type that has a routine to a class of its own name,
    equal types come first and the line is a direct assignment, not a call
    of the routine. *)
Lemma C2_counterexample :
  (spec_row4 bar_target bar_default = true
   /\ explicit_set_condition builder bar_target = true
   /\ add_mapping builder EmptyString bar_target (SrcField bar_default)
      = Ok (emit builder (mkStmt Unguarded "bar" (EMapCall "bar" "_map_to_Bar")))
   /\ lines (emit builder (mkStmt Unguarded "bar" (EMapCall "bar" "_map_to_Bar")))
      = header Bar_meta
        ++ [ "    d[" +:+ dq +:+ "bar" +:+ dq +:+ "] = self.bar._map_to_Bar()" ]
   /\ exec ∅ call_method unset_bar ∅ (mkStmt Unguarded "bar" (EMapCall "bar" "_map_to_Bar"))
      = Some (<["bar" := bar 1]> ∅))
  /\
  (spec_row4 node_field node_field = true
   /\ add_mapping builder EmptyString node_field (SrcField node_field)
      = Ok (emit builder (direct node_field node_field))
   /\ lines (emit builder (direct node_field node_field))
      = header Bar_meta ++ [ "    d[" +:+ dq +:+ "next" +:+ dq +:+ "] = self.next" ]).
Proof. repeat split; reflexivity. Qed.

Lemma C2_witness :
  spec_row4 bar_target bar_nullable = true
  /\ fm_type bar_target <> fm_type bar_nullable
  /\ add_mapping builder EmptyString bar_target (SrcField bar_nullable)
     = Ok (emit builder
             (mkStmt (IfSet "bar") "bar"
                     (ENoneOr "bar" (EMapCall "bar" "_map_to_Bar"))))
  /\ eval ∅ call_method (VObj "Source" [("bar", VNone)] (Some ["bar"]))
          (ENoneOr "bar" (EMapCall "bar" "_map_to_Bar"))
     = Some VNone.
Proof.
  assert (Hne : fm_type bar_target <> fm_type bar_nullable) by discriminate.
  destruct (C2_recursive builder EmptyString bar_target bar_nullable eq_refl Hne)
    as (Hadd & _ & Heval & _).
  split; [reflexivity|]. split; [exact Hne|]. split; [exact Hadd|].
  exact (Heval ∅ call_method (VObj "Source" [("bar", VNone)] (Some ["bar"])) VNone eq_refl).
Defined.

(** C3 as stated fails, as C2 does: a source sequence that is not nullable
    gets no explicit-set guard, and equal sequence types are assigned
    directly, without a guard or under the null check of row 3. *)
Lemma C3_counterexample :
  (spec_row5 tags_target tags_default = true
   /\ explicit_set_condition builder tags_target = true
   /\ add_mapping builder EmptyString tags_target (SrcField tags_default)
      = Ok (emit builder (mkStmt Unguarded "tags" (EMapList "tags" "_map_to_Bar")))
   /\ lines (emit builder (mkStmt Unguarded "tags" (EMapList "tags" "_map_to_Bar")))
      = header Bar_meta
        ++ [ "    d[" +:+ dq +:+ "tags" +:+ dq
             +:+ "] = [x._map_to_Bar() for x in self.tags]" ]
   /\ exec ∅ call_method unset_tags ∅
           (mkStmt Unguarded "tags" (EMapList "tags" "_map_to_Bar"))
      = Some (<["tags" := VList [bar 1; bar 2]]> ∅))
  /\
  (spec_row5 nodes_field nodes_field = true
   /\ add_mapping builder EmptyString nodes_field (SrcField nodes_field)
      = Ok (emit builder (direct nodes_field nodes_field))
   /\ lines (emit builder (direct nodes_field nodes_field))
      = header Bar_meta ++ [ "    d[" +:+ dq +:+ "nodes" +:+ dq +:+ "] = self.nodes" ])
  /\
  (spec_row6 nodes_default nodes_nullable = true
   /\ add_mapping builder EmptyString nodes_default (SrcField nodes_nullable)
      = Ok (emit builder (mkStmt (IfNotNone "nodes") "nodes" (ESelfAttr "nodes")))
   /\ lines (emit builder (mkStmt (IfNotNone "nodes") "nodes" (ESelfAttr "nodes")))
      = header Bar_meta
        ++ [ "    if self.nodes is not None:";
             "        d[" +:+ dq +:+ "nodes" +:+ dq +:+ "] = self.nodes" ]).
Proof. repeat split; reflexivity. Qed.

Lemma C3_witness :
  fm_type tags_target <> fm_type tags_nullable
  /\ spec_row5 tags_target tags_nullable = true
  /\ spec_row6 tags_target_default tags_nullable = true
  /\ add_mapping builder EmptyString tags_target (SrcField tags_nullable)
     = Ok (emit builder
             (mkStmt (IfSet "tags") "tags"
                     (ENoneOr "tags" (EMapList "tags" "_map_to_Bar"))))
  /\ add_mapping builder EmptyString tags_target_default (SrcField tags_nullable)
     = Ok (emit builder
             (mkStmt (IfNotNone "tags") "tags"
                     (ENoneOr "tags" (EMapList "tags" "_map_to_Bar"))))
  /\ exec ∅ call_method unset_tags ∅
          (mkStmt (IfNotNone "tags") "tags"
                  (ENoneOr "tags" (EMapList "tags" "_map_to_Bar")))
     = Some (<["tags" := VList [bar 1; bar 2]]> ∅).
Proof.
  assert (Hne : fm_type tags_target <> fm_type tags_nullable) by discriminate.
  assert (Hne' : fm_type tags_target_default <> fm_type tags_nullable) by discriminate.
  destruct (C3_recursive_list builder EmptyString tags_target tags_nullable Bar
              eq_refl Hne) as [H5 _].
  destruct (C3_recursive_list builder EmptyString tags_target_default tags_nullable Bar
              eq_refl Hne') as [_ H6].
  destruct (H5 eq_refl) as (Hadd5 & _).
  destruct (H6 eq_refl) as (Hadd6 & _ & _ & Hexec).
  split; [exact Hne|]. split; [reflexivity|]. split; [reflexivity|].
  split; [exact Hadd5|]. split; [exact Hadd6|].
  apply (Hexec ∅ call_method unset_tags ∅ [bar2 1; bar2 2] [bar 1; bar 2]);
    [reflexivity|].
  repeat constructor.
Defined.

Lemma C4_witness :
  spec_row3 count_default count_optional = true
  /\ add_mapping builder EmptyString count_default (SrcField count_optional)
     = Ok (emit builder (mkStmt (IfNotNone "count") "count" (ESelfAttr "count")))
  /\ exec ∅ call_method null_count ∅
          (mkStmt (IfNotNone "count") "count" (ESelfAttr "count"))
     = Some ∅.
Proof.
  destruct (C4_not_None_assignment builder EmptyString count_default count_optional
              eq_refl) as (Hadd & _ & Hexec).
  split; [reflexivity|]. split; [exact Hadd|].
  exact (Hexec ∅ call_method null_count ∅ VNone eq_refl).
Defined.


Lemma C6_witness :
  spec_row1 builder x_int x_int = true
  /\ Forall (fun p => same_shape p.1 p.2) [(x_int, x_int); (y_str, y_str)]
  /\ add_mapping builder EmptyString x_int (SrcField x_int)
     = Ok (emit builder (direct x_int x_int))
  /\ exists d,
       run ∅ call_method (mkRoutine "Bar" [direct x_int x_int; direct y_str y_str] "Bar") foo
       = Some (mkConstruction "Bar" d)
       /\ d !! "x" = Some (VInt 42) /\ d !! "y" = Some (VStr "answer")
       /\ d !! "z" = None.
Proof.
  destruct C6_direct_assignment as [Hpair Hshape].
  assert (Hsame : Forall (fun p : FieldMeta * FieldMeta => same_shape p.1 p.2)
                    [(x_int, x_int); (y_str, y_str)]).
  { repeat constructor. }
  destruct (Hpair builder EmptyString x_int x_int eq_refl) as (Hadd & _).
  destruct (Hshape Foo_meta Bar_meta _ Hsame) as (self & _ & _ & Hrun).
  destruct (Hrun ∅ call_method foo) as (d & Hd & Hk).
  { repeat constructor; eexists; reflexivity. }
  split; [reflexivity|]. split; [exact Hsame|]. split; [exact Hadd|].
  exists d. split; [exact Hd|]. rewrite !Hk. repeat split.
Defined.

Lemma C7_witness :
  exists self,
    add_mappings (init Foo_meta Bar_meta)
      (map field_call [(x_int, x_int); (y_str, y_str)]) = Ok self
    /\ to_str self
       = join nl [ "def convert(self) -> " +:+ dq +:+ "Bar" +:+ dq +:+ ":";
                   "    d = {}";
                   "    d[" +:+ dq +:+ "x" +:+ dq +:+ "] = self.x";
                   "    d[" +:+ dq +:+ "y" +:+ dq +:+ "] = self.y";
                   "    return Bar(**d)" ].
Proof.
  destruct C7_finalize as [_ Hbuilt].
  eexists. split; [reflexivity|].
  edestruct (Hbuilt Foo_meta Bar_meta (map field_call [(x_int, x_int); (y_str, y_str)]))
    as (body & Hbody & Htext & _); [reflexivity|].
  injection Hbody as <-. exact Htext.
Defined.


Lemma C9_witness :
  same_requests (requests "0af3") (requests "77b1")
  /\ NoDup (draws (requests "0af3")) /\ NoDup (draws (requests "77b1"))
  /\ exists self1 self2,
       add_mappings builder (requests "0af3") = Ok self1
       /\ add_mappings builder (requests "77b1") = Ok self2
       /\ lines self1 <> lines self2
       /\ forall call_method obj,
            run (methods self1) call_method
                (mkRoutine "Bar" [stmt_function_call "0af3" x_int; direct y_str y_str] "Bar")
                obj
            = run (methods self2) call_method
                  (mkRoutine "Bar" [stmt_function_call "77b1" x_int; direct y_str y_str]
                     "Bar") obj.
Proof.
  assert (Hsame : same_requests (requests "0af3") (requests "77b1")).
  { repeat constructor. }
  assert (Hnd : forall hex, NoDup (draws (requests hex))).
  { intros hex. apply NoDup_singleton. }
  pose proof (C9_determinism Foo_meta Bar_meta _ _ Hsame (Hnd _) (Hnd _)) as H.
  hnf in H. destruct H as (body1 & body2 & Hb1 & Hb2 & _ & _ & Hrun).
  injection Hb1 as <-. injection Hb2 as <-.
  split; [exact Hsame|]. split; [apply Hnd|]. split; [apply Hnd|].
  eexists. eexists. split; [reflexivity|]. split; [reflexivity|].
  split; [|exact Hrun].
  intros Heq. vm_compute in Heq. discriminate.
Defined.

(** ** What [add_mapping] raises, and when *)

Lemma strategy_field_result (self : MappingMethodSourceCode) (hex : string)
    (target source : FieldMeta) :
  (some_row self target source = true /\
   exists s, strategy self hex target (SrcField source) = Ok s)
  \/ (some_row self target source = false /\
      strategy self hex target (SrcField source)
      = Raise (TypeError (cannot_convert self target source))).
Proof.
  unfold some_row, strategy, spec_row1, spec_row2.
  destruct (PyType_eqb (fm_type target) (fm_type source)
            && negb (null_into_non_null target source)).
  { left. split; [destruct (explicit_set_condition self target); reflexivity|eauto]. }
  cbn [andb orb].
  destruct (spec_row3 target source); [left; eauto|].
  destruct (spec_row4 target source); [left; eauto|].
  cbn [orb].
  destruct (spec_row5 target source) eqn:H5.
  { left. split; [reflexivity|].
    apply andb_true_iff in H5 as [Hseq _].
    apply sequence_condition_TList in Hseq as (X & Y & _ & -> & _).
    cbn [get_args index0 bind]. eauto. }
  destruct (spec_row6 target source) eqn:H6.
  { left. split; [reflexivity|].
    unfold spec_row6 in H6. rewrite !andb_true_iff in H6.
    destruct H6 as [[[Hseq _] _] _].
    apply sequence_condition_TList in Hseq as (X & Y & _ & -> & _).
    cbn [get_args index0 bind]. eauto. }
  right. split; reflexivity.
Qed.


(** X2: for a field origin, [add_mapping] returns a builder exactly when
    one of the six rows matches the pair. *)
Theorem add_mapping_succeeds_iff_row (self : MappingMethodSourceCode) (hex : string)
    (target source : FieldMeta) :
  (exists self', add_mapping self hex target (SrcField source) = Ok self')
  <-> some_row self target source = true.
Proof.
  rewrite add_mapping_strategy.
  destruct (strategy_field_result self hex target source) as [[Hrow [s ->]]|[Hrow ->]].
  - split; [intros _; exact Hrow|intros _; cbn [bind]; eauto].
  - split; [intros [self' H]; discriminate|intros H; congruence].
Qed.


(** ** The lines one call appends *)

Lemma strategy_key (self : MappingMethodSourceCode) (hex : string)
    (target : FieldMeta) (source : Source) (s : Stmt) :
  strategy self hex target source = Ok s -> s_key s = fm_name target.
Proof.
  destruct source as [source|function]; [|intros [= <-]; reflexivity].
  unfold strategy.
  repeat match goal with
         | |- context [if ?b then _ else _] => destruct b
         end;
    try discriminate;
    try (destruct (index0 (get_args (fm_type target))); [|discriminate]; cbn [bind]);
    intros [= <-]; reflexivity.
Qed.

Lemma lines_register (self : MappingMethodSourceCode) (hex : string) (source : Source) :
  lines (register self hex source) = lines self.
Proof. destruct source; reflexivity. Qed.

(** X4: a call of [add_mapping] that returns has appended one assignment to
    the key of the target field, either alone at four spaces or at eight
    spaces under a single [if] line at four. *)
Theorem add_mapping_one_assignment (self self' : MappingMethodSourceCode)
    (hex : string) (target : FieldMeta) (source : Source) :
  add_mapping self hex target source = Ok self' ->
  exists right_side,
    lines self'
    = lines self ++ [ "    d[" +:+ dq +:+ fm_name target +:+ dq +:+ "] = " +:+ right_side ]
    \/ exists condition,
         lines self'
         = lines self ++ [ "    if " +:+ condition +:+ ":";
                           "        d[" +:+ dq +:+ fm_name target +:+ dq +:+ "] = "
                           +:+ right_side ].
Proof.
  rewrite add_mapping_strategy.
  destruct (strategy self hex target source) as [s|e] eqn:Hs; [|discriminate].
  cbn [bind]. intros [= <-]. rewrite lines_emit, lines_register.
  apply strategy_key in Hs. exists (render_expr (s_value s)).
  unfold render_stmt, render_assign. rewrite Hs.
  destruct (s_guard s) as [|name|name].
  - left. reflexivity.
  - right. exists ("self." +:+ name +:+ " is not None").
    rewrite ?append_assoc. reflexivity.
  - right. exists ("'" +:+ name +:+ "' in self.__fields_set__").
    rewrite ?append_assoc. reflexivity.
Qed.

(** X11: what a call of [add_mapping] appends, or raises, depends on the
    builder through its two record descriptors only: on two builders of the
    same records, whatever their lines and helpers, the call appends the
    same lines or raises the same error. *)
Theorem add_mapping_history_independent (a b : MappingMethodSourceCode) (hex : string)
    (target : FieldMeta) (source : Source) :
  source_cls a = source_cls b ->
  target_cls a = target_cls b ->
  match add_mapping a hex target source, add_mapping b hex target source with
  | Ok a', Ok b' => exists new, lines a' = lines a ++ new /\ lines b' = lines b ++ new
  | Raise e1, Raise e2 => e1 = e2
  | _, _ => False
  end.
Proof.
  intros Hs Ht. rewrite !add_mapping_strategy, (strategy_ext a b _ _ _ Hs Ht).
  destruct (strategy b hex target source) as [s|e]; cbn [bind]; [|reflexivity].
  exists (render_stmt s). rewrite !lines_emit, !lines_register. split; reflexivity.
Qed.

(** ** Functions of any arity *)

(** X7: [add_function_call] turns no function down: one whose signature has
    any parameter, were it two or more, is registered as it is, and the
    appended line calls it on the instance alone. *)
Theorem add_function_call_any_arity (self : MappingMethodSourceCode) (hex : string)
    (target : FieldMeta) (function : PyFunction) :
  fn_params function <> 0 ->
  methods (add_function_call self hex target function) !! ("_" +:+ hex)
  = Some (method function)
  /\ forall call_method obj d,
       exec (methods (add_function_call self hex target function)) call_method obj d
            (stmt_function_call hex target)
       = (v ← fn_call function [obj]; Some (<[fm_name target := v]> d)).
Proof.
  intros Hn. rewrite add_function_call_emit, methods_emit.
  destruct (Nat.eqb_neq (fn_params function) 0) as [_ ->]; [|exact Hn].
  cbn [set_method methods]. split; [apply lookup_insert_eq|].
  intros call_method obj d. unfold exec.
  cbn [stmt_function_call s_guard s_value s_key guard_holds eval mbind option_bind].
  rewrite lookup_insert_eq. reflexivity.
Qed.

(** ** The helper registry after a synthesis *)

Lemma helpers_after_last (m : gmap string Callable) (calls : list MappingCall)
    (hex : string) :
  helpers_after m calls !! ("_" +:+ hex)
  = match last_function hex calls with
    | Some function => Some (helper_of function)
    | None => m !! ("_" +:+ hex)
    end.
Proof.
  revert m. induction calls as [|[[h t] [s|f]] rest IH]; intros m;
    [reflexivity|apply IH|].
  cbn [helpers_after last_function]. rewrite IH.
  destruct (last_function hex rest) as [later|]; [reflexivity|].
  destruct (decide (h = hex)) as [->|Hne].
  - rewrite bool_decide_eq_true_2 by reflexivity. apply lookup_insert_eq.
  - rewrite bool_decide_eq_false_2 by exact Hne.
    apply lookup_insert_ne. intros Heq. apply underscore_inj in Heq. contradiction.
Qed.

Lemma last_function_drawn (hex : string) (calls : list MappingCall) :
  hex ∈ draws calls -> is_Some (last_function hex calls).
Proof.
  induction calls as [|[[h t] [s|f]] rest IH]; cbn [draws last_function].
  - intros H. apply elem_of_nil in H. contradiction.
  - exact IH.
  - intros [->|Hin]%elem_of_cons.
    + destruct (last_function h rest); [eauto|].
      rewrite bool_decide_eq_true_2 by reflexivity. eauto.
    + destruct (IH Hin) as [g ->]. eauto.
Qed.

Lemma last_function_in (hex : string) (calls : list MappingCall) (function : PyFunction) :
  last_function hex calls = Some function ->
  exists target, (hex, target, SrcFunction function) ∈ calls.
Proof.
  induction calls as [|[[h t] [s|f]] rest IH]; cbn [last_function]; [discriminate| |].
  - intros H. destruct (IH H) as [target Hin]. exists target.
    apply elem_of_cons. right. exact Hin.
  - destruct (last_function hex rest) as [later|].
    + intros H. destruct (IH H) as [target Hin]. exists target.
      apply elem_of_cons. right. exact Hin.
    + destruct (decide (h = hex)) as [->|Hne].
      * rewrite bool_decide_eq_true_2 by reflexivity. intros [= <-].
        exists t. apply elem_of_cons. left. reflexivity.
      * rewrite bool_decide_eq_false_2 by exact Hne. discriminate.
Qed.

Lemma helpers_after_is_Some (m : gmap string Callable) (calls : list MappingCall)
    (k : string) :
  is_Some (helpers_after m calls !! k) ->
  is_Some (m !! k) \/ exists hex, hex ∈ draws calls /\ k = "_" +:+ hex.
Proof.
  revert m. induction calls as [|[[h t] [s|f]] rest IH]; intros m;
    cbn [helpers_after draws]; [auto|apply IH|].
  intros H. destruct (IH _ H) as [Hm|(hex & Hin & ->)].
  - destruct (decide ("_" +:+ h = k)) as [<-|Hne].
    + right. exists h. split; [apply elem_of_cons; left; reflexivity|reflexivity].
    + left. rewrite lookup_insert_ne in Hm by exact Hne. exact Hm.
  - right. exists hex. split; [apply elem_of_cons; right; exact Hin|reflexivity].
Qed.

Lemma strategy_helpers (self : MappingMethodSourceCode) (hex : string)
    (target : FieldMeta) (source : Source) (s : Stmt) :
  strategy self hex target source = Ok s ->
  expr_helpers (s_value s)
  = match source with
    | SrcFunction _ => ["_" +:+ hex]
    | SrcField _ => []
    end.
Proof.
  destruct source as [source|function]; [|intros [= <-]; reflexivity].
  unfold strategy.
  repeat match goal with
         | |- context [if ?b then _ else _] => destruct b
         end;
    try discriminate;
    try (destruct (index0 (get_args (fm_type target))); [|discriminate]; cbn [bind]);
    intros [= <-]; cbn; destruct (allow_none source); reflexivity.
Qed.

Lemma strategies_helpers (self : MappingMethodSourceCode) (calls : list MappingCall)
    (body : list Stmt) :
  strategies self calls = Ok body ->
  Forall (fun s => forall name, name ∈ expr_helpers (s_value s) ->
                                exists hex, hex ∈ draws calls /\ name = "_" +:+ hex) body.
Proof.
  revert body. induction calls as [|[[h t] src] rest IH]; intros body;
    cbn [strategies]; [intros [= <-]; constructor|].
  destruct (strategy self h t src) as [s|e] eqn:Hs; [|discriminate]. cbn [bind].
  destruct (strategies self rest) as [body'|e]; [|discriminate]. cbn [bind].
  intros [= <-]. constructor.
  - intros name Hin. rewrite (strategy_helpers _ _ _ _ _ Hs) in Hin.
    destruct src as [field|function]; [apply elem_of_nil in Hin; contradiction|].
    apply list_elem_of_singleton in Hin as ->.
    exists h. split; [apply elem_of_cons; left; reflexivity|reflexivity].
  - eapply Forall_impl; [apply IH; reflexivity|].
    intros s' Hs' name Hin. destruct (Hs' name Hin) as (hex & Hd & ->).
    exists hex. split; [|reflexivity].
    destruct src; [exact Hd|apply elem_of_cons; right; exact Hd].
Qed.

(** X5: after a synthesis, the names in the helper registry are exactly the
    draws of [uuid4] with an underscore before them, and every helper the
    statements of the routine call is in the registry. *)
Theorem registry_holds_every_helper (sc tc : ClassMeta) (calls : list MappingCall)
    (self : MappingMethodSourceCode) :
  add_mappings (init sc tc) calls = Ok self ->
  (forall k, is_Some (methods self !! k)
             <-> exists hex, hex ∈ draws calls /\ k = "_" +:+ hex)
  /\ exists body,
       strategies (init sc tc) calls = Ok body
       /\ to_str self = render_routine (mkRoutine (cm_name tc) body (alias_name tc))
       /\ Forall (fun s => forall name, name ∈ expr_helpers (s_value s) ->
                                        is_Some (methods self !! name)) body.
Proof.
  rewrite add_mappings_strategies.
  destruct (strategies (init sc tc) calls) as [body|e] eqn:Hbody; [|discriminate].
  cbn [bind]. intros [= <-]. cbn [methods init].
  assert (Hdrawn : forall hex, hex ∈ draws calls ->
                               is_Some (helpers_after ∅ calls !! ("_" +:+ hex))).
  { intros hex Hin. rewrite helpers_after_last.
    destruct (last_function_drawn hex calls Hin) as [g ->]. eauto. }
  split.
  - intros k. split.
    + intros H. destruct (helpers_after_is_Some _ _ _ H) as [Hempty|Hex]; [|exact Hex].
      rewrite lookup_empty in Hempty. destruct Hempty; discriminate.
    + intros (hex & Hin & ->). apply Hdrawn, Hin.
  - exists body. split; [reflexivity|]. split; [exact (to_str_routine sc tc body _)|].
    eapply Forall_impl; [apply (strategies_helpers _ _ _ Hbody)|].
    intros s Hs name Hin. destruct (Hs name Hin) as (hex & Hd & ->).
    apply Hdrawn, Hd.
Qed.

(** X6: after a synthesis, the helper under the name of a draw is the
    function of the last call that made that draw; so when [uuid4] repeats a
    draw the later function replaces the earlier one, and the line appended
    for any function calls the last function given under its draw. *)
Theorem registry_keeps_last_function (sc tc : ClassMeta) (calls : list MappingCall)
    (self : MappingMethodSourceCode) :
  add_mappings (init sc tc) calls = Ok self ->
  (forall hex, methods self !! ("_" +:+ hex) = helper_of <$> last_function hex calls)
  /\ forall hex target function,
       (hex, target, SrcFunction function) ∈ calls ->
       exists last,
         last_function hex calls = Some last
         /\ forall call_method obj d,
              exec (methods self) call_method obj d (stmt_function_call hex target)
              = (v ← fn_call last (helper_arguments last obj);
                 Some (<[fm_name target := v]> d)).
Proof.
  intros Hbuilt. rewrite (methods_add_mappings _ _ _ Hbuilt). cbn [methods init].
  assert (Hlast : forall hex, helpers_after ∅ calls !! ("_" +:+ hex)
                              = helper_of <$> last_function hex calls).
  { intros hex. rewrite helpers_after_last.
    destruct (last_function hex calls); [reflexivity|apply lookup_empty]. }
  split; [exact Hlast|].
  intros hex target function Hin.
  assert (Hdrawn : hex ∈ draws calls).
  { clear -Hin. induction calls as [|[[h t] [s|f]] rest IH].
    - apply elem_of_nil in Hin. contradiction.
    - apply elem_of_cons in Hin as [Heq|Hin]; [discriminate|]. apply IH, Hin.
    - cbn [draws]. apply elem_of_cons in Hin as [Heq|Hin].
      + injection Heq as -> _ _. apply elem_of_cons. left. reflexivity.
      + apply elem_of_cons. right. apply IH, Hin. }
  destruct (last_function_drawn hex calls Hdrawn) as [last Hl].
  exists last. split; [exact Hl|].
  intros call_method obj d. unfold exec.
  cbn [stmt_function_call s_guard s_value s_key guard_holds eval mbind option_bind].
  rewrite Hlast, Hl. cbn [fmap option_fmap option_map].
  unfold helper_of, helper_arguments. destruct (Nat.eqb (fn_params last) 0); reflexivity.
Qed.

(** ** The first pair that cannot be converted *)




(** ** The order of the fields *)






Lemma strategies_keys (self : MappingMethodSourceCode) (calls : list MappingCall)
    (body : list Stmt) :
  strategies self calls = Ok body -> map s_key body = target_names calls.
Proof.
  revert body. induction calls as [|[[h t] src] rest IH]; intros body;
    cbn [strategies]; [intros [= <-]; reflexivity|].
  destruct (strategy self h t src) as [s|e] eqn:Hs; [|discriminate]. cbn [bind].
  destruct (strategies self rest) as [b|e]; [|discriminate]. cbn [bind].
  intros [= <-]. cbn [map target_names]. rewrite (strategy_key _ _ _ _ _ Hs).
  f_equal. apply IH. reflexivity.
Qed.


(** ** A routine that does not raise *)

Lemma strategy_field_cases (self : MappingMethodSourceCode) (hex : string)
    (target source : FieldMeta) (s : Stmt) :
  strategy self hex target (SrcField source) = Ok s ->
  (exists only_if_not_None only_if_set,
      (only_if_set = true -> explicit_set_condition self target = true)
      /\ s = stmt_assignment target source only_if_not_None only_if_set)
  \/ (fm_type target <> fm_type source
      /\ is_mappable_to (fm_type source) (fm_type target) = true
      /\ exists only_if_set,
           (only_if_set = true -> explicit_set_condition self target = true)
           /\ s = stmt_recursive target source only_if_set (allow_none source))
  \/ (fm_type target <> fm_type source
      /\ exists X Y only_if_not_None only_if_set,
           fm_type source = TList X /\ fm_type target = TList Y
           /\ (only_if_set = true -> explicit_set_condition self target = true)
           /\ s = stmt_recursive_list target source Y (allow_none source)
                    only_if_not_None only_if_set).
Proof.
  unfold strategy.
  destruct (PyType_eqb (fm_type target) (fm_type source)
            && negb (null_into_non_null target source)) eqn:H1.
  { intros [= <-]. left. exists false, (allow_none source && explicit_set_condition self target).
    split; [|reflexivity]. intros [_ H]%andb_true_iff. exact H. }
  destruct (spec_row3 target source) eqn:H3.
  { intros [= <-]. left. exists true, false. split; [discriminate|reflexivity]. }
  assert (Hne : (spec_row4 target source = true \/ spec_row5 target source = true
                 \/ spec_row6 target source = true) ->
                fm_type target <> fm_type source).
  { intros Hrows Heq. apply PyType_eqb_eq in Heq.
    unfold spec_row3, spec_row4, spec_row5, spec_row6, null_into_non_null in *.
    rewrite Heq in H1, H3. cbn [andb] in H1, H3.
    destruct (allow_none source), (allow_none target), (required target),
      (is_mappable_to (fm_type source) (fm_type target)),
      (sequence_condition target source);
      cbn in *; try discriminate; destruct Hrows as [?|[?|?]]; discriminate. }
  destruct (spec_row4 target source) eqn:H4.
  { intros [= <-]. right. left. split; [apply Hne; auto|].
    unfold spec_row4 in H4. apply andb_true_iff in H4 as [H4 _]. split; [exact H4|].
    exists (allow_none source && explicit_set_condition self target).
    split; [|reflexivity]. intros [_ H]%andb_true_iff. exact H. }
  destruct (spec_row5 target source) eqn:H5.
  { pose proof H5 as H5'. unfold spec_row5 in H5'. apply andb_true_iff in H5' as [Hseq _].
    apply sequence_condition_TList in Hseq as (X & Y & HX & HY & _).
    rewrite HY at 1. cbn [get_args index0 bind]. intros [= <-].
    right. right. split; [apply Hne; auto|].
    exists X, Y, false, (allow_none source && explicit_set_condition self target).
    split; [exact HX|]. split; [exact HY|]. split; [|reflexivity].
    intros [_ H]%andb_true_iff. exact H. }
  destruct (spec_row6 target source) eqn:H6; [|discriminate].
  pose proof H6 as H6'. unfold spec_row6 in H6'. rewrite !andb_true_iff in H6'.
  destruct H6' as [[[Hseq _] _] _].
  apply sequence_condition_TList in Hseq as (X & Y & HX & HY & _).
  rewrite HY at 1. cbn [get_args index0 bind]. intros [= <-].
  right. right. split; [apply Hne; auto|].
  exists X, Y, true, false.
  split; [exact HX|]. split; [exact HY|]. split; [discriminate|reflexivity].
Qed.

Section Ready.

Context (helpers : gmap string Callable) (call_method : Value -> string -> option Value).

Lemma exec_is_Some (obj : Value) (d : gmap string Value) (s : Stmt) :
  is_Some (guard_holds obj (s_guard s)) ->
  is_Some (eval helpers call_method obj (s_value s)) ->
  is_Some (exec helpers call_method obj d s).
Proof.
  intros [b Hb] [v Hv]. unfold exec. rewrite Hb, Hv. destruct b; cbn; eauto.
Qed.

Lemma guard_is_Some (obj v : Value) (name : string)
    (only_if_not_None only_if_set : bool) :
  getattr obj name = Some v ->
  (only_if_set = true -> tracks_set obj) ->
  is_Some (guard_holds obj (if only_if_set then IfSet name
                            else if only_if_not_None then IfNotNone name
                            else Unguarded)).
Proof.
  intros Hv Htracks. destruct only_if_set.
  - destruct (Htracks eq_refl) as (cls & attrs & fs & ->). cbn. eauto.
  - destruct only_if_not_None; cbn; [rewrite Hv|]; cbn; eauto.
Qed.

Lemma eval_none_or_is_Some (obj v : Value) (if_None : bool) (name : string) (e : Expr) :
  getattr obj name = Some v ->
  (is_None v = true -> if_None = true) ->
  (is_None v = false -> is_Some (eval helpers call_method obj e)) ->
  is_Some (eval helpers call_method obj (none_or if_None name e)).
Proof.
  intros Hv Hnull Hvalue. rewrite (eval_none_or _ _ _ _ _ _ _ Hv).
  destruct (is_None v).
  - rewrite (Hnull eq_refl). eauto.
  - rewrite andb_false_r. apply Hvalue. reflexivity.
Qed.

Lemma exec_all_is_Some (obj : Value) (body : list Stmt) :
  Forall (fun s => forall d, is_Some (exec helpers call_method obj d s)) body ->
  forall d, is_Some (exec_all helpers call_method obj d body).
Proof.
  induction 1 as [|s rest Hs _ IH]; intros d; cbn [exec_all]; [eauto|].
  destruct (Hs d) as [d' ->]. apply IH.
Qed.

Lemma exec_field_ready (self : MappingMethodSourceCode) (hex : string)
    (target source : FieldMeta) (s : Stmt) (obj : Value) :
  strategy self hex target (SrcField source) = Ok s ->
  (_type (source_cls self) = PYDANTIC -> tracks_set obj) ->
  ready call_method obj (hex, target, SrcField source) ->
  forall d, is_Some (exec helpers call_method obj d s).
Proof.
  intros Hs Htracks (v & Hv & Hnull & Hvalue) d. cbn [fst snd] in Hvalue.
  assert (Hset : explicit_set_condition self target = true -> tracks_set obj).
  { unfold explicit_set_condition, both_track_explicit_set.
    rewrite !andb_true_iff. intros [[[Hk _] _] _].
    apply Htracks, DataclassType_eqb_eq, Hk. }
  apply strategy_field_cases in Hs
    as [(n & u & Hu & ->)
       |[(Hne & Hmap & u & Hu & ->)
        |(Hne & X & Y & n & u & HX & HY & Hu & ->)]];
    apply exec_is_Some.
  - apply (guard_is_Some _ _ _ _ _ Hv). intros E. apply Hset, Hu, E.
  - cbn [stmt_assignment s_value eval]. rewrite Hv. eauto.
  - apply (guard_is_Some obj v _ false _ Hv). intros E. apply Hset, Hu, E.
  - cbn [stmt_recursive s_value].
    apply (eval_none_or_is_Some _ _ _ _ _ Hv Hnull).
    intros Hnn. cbn [eval]. rewrite Hv.
    apply (proj1 (Hvalue Hnn Hne) Hmap).
  - apply (guard_is_Some _ _ _ _ _ Hv). intros E. apply Hset, Hu, E.
  - cbn [stmt_recursive_list s_value].
    apply (eval_none_or_is_Some _ _ _ _ _ Hv Hnull).
    intros Hnn. destruct (proj2 (Hvalue Hnn Hne) X Y HX HY) as (items & -> & Hitems).
    cbn [eval]. rewrite Hv. cbn.
    destruct (mapM_is_Some_2 (fun x => call_method x (get_map_to_func_name Y)) items)
      as [ys ->]; [|cbn; eauto].
    eapply Forall_impl; [exact Hitems|]. intros x Hx. exact Hx.
Qed.

End Ready.

(** X10: once a synthesis has succeeded, the routine does not raise on an
    instance that is fit for every call: one that carries
    [__fields_set__] when the source kind tracks it, holds every source
    field with a value that is null only where the source is nullable and
    that the nested routines return on, and on which the helper functions
    return.  The routine then returns the construction by the target's
    [alias_name]. *)
Theorem routine_never_raises (sc tc : ClassMeta) (calls : list MappingCall)
    (self : MappingMethodSourceCode) (call_method : Value -> string -> option Value)
    (obj : Value) :
  add_mappings (init sc tc) calls = Ok self ->
  (_type sc = PYDANTIC -> tracks_set obj) ->
  Forall (ready call_method obj) calls ->
  exists body d,
    strategies (init sc tc) calls = Ok body
    /\ to_str self = render_routine (mkRoutine (cm_name tc) body (alias_name tc))
    /\ run (methods self) call_method (mkRoutine (cm_name tc) body (alias_name tc)) obj
       = Some (mkConstruction (alias_name tc) d).
Proof.
  intros Hbuilt Htracks Hready.
  pose proof (methods_add_mappings _ _ _ Hbuilt) as Hm. cbn [methods init] in Hm.
  rewrite add_mappings_strategies in Hbuilt.
  destruct (strategies (init sc tc) calls) as [body|e] eqn:Hbody; [|discriminate].
  cbn [bind] in Hbuilt. injection Hbuilt as <-. cbn [methods] in *.
  assert (Hexec : forall sub body',
             (forall c, c ∈ sub -> c ∈ calls) ->
             strategies (init sc tc) sub = Ok body' ->
             Forall (fun s => forall d,
                         is_Some (exec (helpers_after ∅ calls) call_method obj d s))
                    body').
  { induction sub as [|[[h t] src] rest IH]; intros body' Hsub;
      cbn [strategies]; [intros [= <-]; constructor|].
    destruct (strategy (init sc tc) h t src) as [s|e] eqn:Hs; [|discriminate].
    cbn [bind].
    destruct (strategies (init sc tc) rest) as [b|e]; [|discriminate]. cbn [bind].
    intros [= <-].
    assert (Hin : (h, t, src) ∈ calls) by (apply Hsub, elem_of_cons; left; reflexivity).
    constructor.
    - destruct src as [field|function].
      + apply (exec_field_ready _ _ _ _ _ _ _ _ Hs Htracks).
        apply (proj1 (Forall_forall _ _) Hready _ Hin).
      + injection Hs as <-. intros d. unfold exec.
        cbn [stmt_function_call s_guard s_value s_key guard_holds eval
             mbind option_bind].
        rewrite helpers_after_last.
        assert (Hdrawn : h ∈ draws calls).
        { clear -Hin. induction calls as [|[[h' t'] [s'|f']] l IHl].
          - apply elem_of_nil in Hin. contradiction.
          - apply elem_of_cons in Hin as [Heq|Hin]; [discriminate|]. apply IHl, Hin.
          - cbn [draws]. apply elem_of_cons in Hin as [Heq|Hin].
            + injection Heq as -> _ _. apply elem_of_cons. left. reflexivity.
            + apply elem_of_cons. right. apply IHl, Hin. }
        destruct (last_function_drawn h calls Hdrawn) as [last Hl]. rewrite Hl.
        destruct (last_function_in _ _ _ Hl) as [t' Hlast].
        pose proof (proj1 (Forall_forall _ _) Hready _ Hlast) as Hr.
        unfold ready in Hr. cbn [snd] in Hr. unfold helper_arguments in Hr.
        unfold helper_of. destruct (Nat.eqb (fn_params last) 0);
          destruct Hr as [v ->]; cbn; eauto.
    - apply IH; [|reflexivity]. intros c Hc. apply Hsub, elem_of_cons. right. exact Hc. }
  destruct (exec_all_is_Some (helpers_after ∅ calls) call_method obj body
              (Hexec calls body (fun c H => H) Hbody) ∅) as [d Hd].
  exists body, d. split; [reflexivity|]. split; [exact (to_str_routine sc tc body _)|].
  unfold run. cbn [r_body r_constructor]. rewrite Hd. reflexivity.
Qed.

(** ** Targets of one name *)

(** X12: the routine to a target type is looked up by the type's
    [__name__] alone: for a target field whose type is a class different
    from the source's, putting in its place any other class of the same
    name, different from the source's as well, changes nothing to what
    [add_mapping] returns or raises. *)
Theorem add_mapping_target_by_name (self : MappingMethodSourceCode) (hex : string)
    (target : FieldMeta) (source : Source) (other : PyType) :
  get_origin (fm_type target) = None ->
  get_origin other = None ->
  dunder_name other = dunder_name (fm_type target) ->
  (forall field, source = SrcField field ->
                 fm_type field <> fm_type target /\ fm_type field <> other) ->
  add_mapping self hex (with_type target other) source
  = add_mapping self hex target source.
Proof.
  intros Ht Ho Hname Hne. destruct source as [field|function]; [|reflexivity].
  destruct (Hne field eq_refl) as [Hne1 Hne2].
  rewrite !add_mapping_strategy. cbn [register]. f_equal.
  unfold strategy, spec_row3, spec_row4, spec_row5, spec_row6, null_into_non_null,
    sequence_condition, explicit_set_condition, cannot_convert, is_mappable_to,
    get_map_to_func_name, stmt_assignment, stmt_recursive, stmt_recursive_list,
    get_map_to_func_name.
  cbn [with_type fm_type fm_name allow_none required fm_str].
  rewrite Hname.
  rewrite (PyType_eqb_neq other (fm_type field))
    by (intros E; apply Hne2; symmetry; exact E).
  rewrite (PyType_eqb_neq (fm_type target) (fm_type field))
    by (intros E; apply Hne1; symmetry; exact E).
  destruct other as [i n l|Y]; [|discriminate].
  destruct (fm_type target) as [j m k|Z]; [|discriminate].
  destruct (fm_type field); reflexivity.
Qed.

(** ** The keys the routine sets *)

Lemma exec_keys (helpers : gmap string Callable)
    (call_method : Value -> string -> option Value) (obj : Value)
    (d d' : gmap string Value) (s : Stmt) (k : string) :
  exec helpers call_method obj d s = Some d' ->
  is_Some (d' !! k) -> is_Some (d !! k) \/ k = s_key s.
Proof.
  unfold exec.
  destruct (guard_holds obj (s_guard s)) as [[|]|]; cbn [mbind option_bind];
    [|intros [= <-]; auto|discriminate].
  destruct (eval helpers call_method obj (s_value s)) as [v|]; cbn [mbind option_bind];
    [|discriminate].
  intros [= <-] Hk. destruct (decide (s_key s = k)) as [<-|Hne]; [auto|].
  rewrite lookup_insert_ne in Hk by exact Hne. auto.
Qed.

Lemma exec_all_keys (helpers : gmap string Callable)
    (call_method : Value -> string -> option Value) (obj : Value)
    (body : list Stmt) (d d' : gmap string Value) (k : string) :
  exec_all helpers call_method obj d body = Some d' ->
  is_Some (d' !! k) -> is_Some (d !! k) \/ k ∈ map s_key body.
Proof.
  revert d. induction body as [|s rest IH]; intros d; cbn [exec_all map].
  - intros [= <-]. auto.
  - destruct (exec helpers call_method obj d s) as [d1|] eqn:Hs;
      cbn [mbind option_bind]; [|discriminate].
    intros Hrest Hk. destruct (IH d1 Hrest Hk) as [H1|Hin].
    + destruct (exec_keys _ _ _ _ _ _ _ Hs H1) as [Hd | ->]; [auto|].
      right. apply elem_of_cons. left. reflexivity.
    + right. apply elem_of_cons. right. exact Hin.
Qed.

(** X13: the routine passes to the constructor no other keyword than the
    names of the target fields [add_mapping] was called for: a target field
    left out of the synthesis is never set. *)
Theorem routine_sets_only_targets (sc tc : ClassMeta) (calls : list MappingCall)
    (self : MappingMethodSourceCode) (body : list Stmt)
    (call_method : Value -> string -> option Value) (obj : Value)
    (result : Construction) :
  add_mappings (init sc tc) calls = Ok self ->
  strategies (init sc tc) calls = Ok body ->
  run (methods self) call_method (mkRoutine (cm_name tc) body (alias_name tc)) obj
  = Some result ->
  constructor result = alias_name tc
  /\ forall k, is_Some (kwargs result !! k) -> k ∈ target_names calls.
Proof.
  intros _ Hbody. unfold run. cbn [r_body r_constructor].
  destruct (exec_all (methods self) call_method obj ∅ body) as [d|] eqn:Hd;
    cbn [mbind option_bind]; [|discriminate].
  intros [= <-]. split; [reflexivity|]. cbn [kwargs]. intros k Hk.
  destruct (exec_all_keys _ _ _ _ _ _ _ Hd Hk) as [Hempty|Hin].
  - rewrite lookup_empty in Hempty. destruct Hempty; discriminate.
  - rewrite <- (strategies_keys _ _ _ Hbody). exact Hin.
Qed.

Lemma add_mapping_succeeds_iff_row_witness :
  some_row builder bar_target bar_nullable = true
  /\ exists self', add_mapping builder EmptyString bar_target (SrcField bar_nullable)
                   = Ok self'.
Proof.
  split; [reflexivity|].
  apply (proj2 (add_mapping_succeeds_iff_row builder EmptyString bar_target bar_nullable)).
  reflexivity.
Defined.


Lemma add_mapping_one_assignment_witness :
  exists right_side,
    lines (emit builder (mkStmt (IfSet "count") "count" (ESelfAttr "count")))
    = lines builder ++ [ "    d[" +:+ dq +:+ "count" +:+ dq +:+ "] = " +:+ right_side ]
    \/ exists condition,
         lines (emit builder (mkStmt (IfSet "count") "count" (ESelfAttr "count")))
         = lines builder ++ [ "    if " +:+ condition +:+ ":";
                              "        d[" +:+ dq +:+ "count" +:+ dq +:+ "] = "
                              +:+ right_side ].
Proof.
  apply (add_mapping_one_assignment builder _ EmptyString count_optional
           (SrcField count_optional)).
  reflexivity.
Defined.

Lemma add_mapping_history_independent_witness :
  exists new,
    lines (emit (emit builder (direct x_int x_int)) (direct y_str y_str))
    = lines (emit builder (direct x_int x_int)) ++ new
    /\ lines (emit builder (direct y_str y_str)) = lines builder ++ new.
Proof.
  exact (add_mapping_history_independent (emit builder (direct x_int x_int)) builder
           EmptyString y_str (SrcField y_str) eq_refl eq_refl).
Defined.

Lemma add_function_call_any_arity_witness :
  fn_params first_of_two <> 0
  /\ methods (add_function_call builder "0af3" x_int first_of_two) !! "_0af3"
     = Some (method first_of_two)
  /\ exec (methods (add_function_call builder "0af3" x_int first_of_two))
          call_method foo ∅ (stmt_function_call "0af3" x_int)
     = None.
Proof.
  assert (Hn : fn_params first_of_two <> 0) by discriminate.
  destruct (add_function_call_any_arity builder "0af3" x_int first_of_two Hn)
    as [Hm Hexec].
  split; [exact Hn|]. split; [exact Hm|]. rewrite Hexec. reflexivity.
Defined.

Lemma registry_holds_every_helper_witness :
  exists self,
    add_mappings (init Foo_meta Bar_meta) (requests "0af3") = Ok self
    /\ forall k, is_Some (methods self !! k)
                 <-> exists hex, hex ∈ draws (requests "0af3") /\ k = "_" +:+ hex.
Proof.
  eexists. split; [reflexivity|].
  refine (proj1 (registry_holds_every_helper Foo_meta Bar_meta (requests "0af3") _ _)).
  reflexivity.
Defined.

Lemma registry_keeps_last_function_witness :
  exists self,
    add_mappings (init Foo_meta Bar_meta) colliding = Ok self
    /\ methods self !! "_0af3" = Some (method x_of_self)
    /\ exec (methods self) call_method foo ∅ (stmt_function_call "0af3" x_int)
       = Some (<["x" := VInt 42]> ∅).
Proof.
  eexists. split; [reflexivity|].
  edestruct (registry_keeps_last_function Foo_meta Bar_meta colliding)
    as [Hlast Hcalls]; [reflexivity|].
  split; [exact (Hlast "0af3")|].
  destruct (Hcalls "0af3" x_int constant) as (last & Hl & Hexec).
  { apply elem_of_cons. left. reflexivity. }
  injection Hl as <-. rewrite Hexec. reflexivity.
Defined.



Lemma routine_never_raises_witness :
  tracks_set foo
  /\ Forall (ready call_method foo) (requests "0af3")
  /\ exists self body d,
       add_mappings (init Foo_meta Bar_meta) (requests "0af3") = Ok self
       /\ strategies (init Foo_meta Bar_meta) (requests "0af3") = Ok body
       /\ run (methods self) call_method (mkRoutine "Bar" body "Bar") foo
          = Some (mkConstruction "Bar" d).
Proof.
  assert (Htracks : tracks_set foo) by (do 3 eexists; reflexivity).
  assert (Hready : Forall (ready call_method foo) (requests "0af3")).
  { constructor; [eexists; reflexivity|]. constructor; [|constructor].
    exists (VStr "answer"). split; [reflexivity|]. split; [discriminate|].
    intros _ Hne. exfalso. apply Hne. reflexivity. }
  split; [exact Htracks|]. split; [exact Hready|].
  destruct (add_mappings (init Foo_meta Bar_meta) (requests "0af3")) as [self|e] eqn:Hadd;
    [|vm_compute in Hadd; discriminate].
  destruct (routine_never_raises Foo_meta Bar_meta (requests "0af3") self call_method foo
              Hadd (fun _ => Htracks) Hready) as (body & d & Hbody & _ & Hrun).
  exists self, body, d. split; [reflexivity|]. split; [exact Hbody|exact Hrun].
Defined.

Lemma add_mapping_target_by_name_witness :
  Bar_elsewhere <> Bar
  /\ add_mapping builder EmptyString (with_type bar_target Bar_elsewhere)
       (SrcField bar_nullable)
     = add_mapping builder EmptyString bar_target (SrcField bar_nullable).
Proof.
  split; [discriminate|].
  apply add_mapping_target_by_name; try reflexivity.
  intros field [= <-]. split; discriminate.
Defined.

Lemma routine_sets_only_targets_witness :
  exists self body result,
    add_mappings (init Foo_meta Bar_meta) (requests "0af3") = Ok self
    /\ strategies (init Foo_meta Bar_meta) (requests "0af3") = Ok body
    /\ run (methods self) call_method (mkRoutine "Bar" body "Bar") foo = Some result
    /\ forall k, is_Some (kwargs result !! k) -> k ∈ target_names (requests "0af3").
Proof.
  eexists. eexists. eexists.
  split; [reflexivity|]. split; [reflexivity|]. split; [reflexivity|].
  refine (proj2 (routine_sets_only_targets Foo_meta Bar_meta (requests "0af3")
                   _ _ call_method foo _ _ _ _)); reflexivity.
Defined.
